(** * The mysql-connector-cpp recipe (recipes/mysql-connector-cpp/all/conanfile.py)

    A shallow embedding of the recipe class [MysqlCppConnRecipe]: toolchain
    validation, option normalisation, the CMake cache variables, the source
    patches and the published [cpp_info].

    Python strings are [string]; dictionaries are [gmap string _]; a method
    that can raise returns a [result]; the source tree that the patches
    rewrite in place is a finite map from file path to file content, threaded
    through the patch steps.

    The functions that the recipe imports from the [conan] package and from
    the Python library are modelled in the modules [Conan] and [Py], after
    their documented behaviour. The library directories that [package_info]
    publishes are joined by the [os.path] of the host, [posixpath] or
    [ntpath]; the files of the source tree are keyed by paths joined as
    [posixpath] does, the separator playing no part in a key. *)

From Stdlib Require Import ZArith Ascii String List Bool DecimalString.
From stdpp Require Import gmap strings.

Local Open Scope Z_scope.

(** ** Exceptions and the result of a method that may raise *)

Inductive exception : Type :=
| ConanInvalidConfiguration (msg : string)
| ConanException (msg : string)
| FileNotFoundError (path : string)
| KeyError (key : string).

Inductive result (A : Type) : Type :=
| Ok (a : A)
| Raise (e : exception).

Arguments Ok {A} a.
Arguments Raise {A} e.

Global Instance result_ret : MRet result := fun _ a => Ok a.

Global Instance result_bind : MBind result := fun _ _ k m =>
  match m with
  | Ok a => k a
  | Raise e => Raise e
  end.

Definition raises {A : Type} (m : result A) : Prop :=
  exists e, m = Raise e.

Definition is_ok {A : Type} (m : result A) : bool :=
  match m with Ok _ => true | Raise _ => false end.

(** ** The Python string operations the recipe and its helpers rely on *)

Module Py.

(** [s.find(sub)]: index of the first occurrence, [-1] when there is none. *)
Fixpoint find_from (i : Z) (s sub : string) : Z :=
  if String.prefix sub s then i
  else match s with
       | EmptyString => -1
       | String _ s' => find_from (i + 1) s' sub
       end.

Definition find (s sub : string) : Z := find_from 0 s sub.

(** [sub in s] *)
Definition contains (sub s : string) : bool := negb (find s sub =? -1).

(** [s.replace(old, new)]: every non-overlapping occurrence, left to right.
    [skip] counts the characters of a match still to be dropped. *)
Fixpoint replace_go (old new : string) (skip : nat) (s : string) : string :=
  match s with
  | EmptyString =>
      match skip, old with
      | O, EmptyString => new
      | _, _ => EmptyString
      end
  | String c s' =>
      match skip with
      | S k => replace_go old new k s'
      | O =>
          if String.prefix old s then
            match String.length old with
            | O => new +:+ String c (replace_go old new O s')
            | S k => new +:+ replace_go old new k s'
            end
          else String c (replace_go old new O s')
      end
  end.

Definition replace (s old new : string) : string := replace_go old new O s.

(** [s.split(sep)] for a one-character separator. *)
Fixpoint split_go (sep : ascii) (cur : string) (s : string) : list string :=
  match s with
  | EmptyString => [String.rev cur]
  | String c s' =>
      if Ascii.eqb c sep then String.rev cur :: split_go sep EmptyString s'
      else split_go sep (String c cur) s'
  end.

Definition split (s : string) (sep : ascii) : list string :=
  split_go sep EmptyString s.

(** Truth value of a string, and of [None]-or-string. *)
Definition truthy (s : string) : bool :=
  match s with EmptyString => false | _ => true end.

Definition truthy_opt (o : option string) : bool :=
  match o with None => false | Some s => truthy s end.

(** [x in [a, b, ...]] *)
Definition elem (x : string) (l : list string) : bool :=
  existsb (String.eqb x) l.

(** [s.endswith(c)] for a one-character suffix. *)
Fixpoint endswith (s : string) (c : ascii) : bool :=
  match s with
  | EmptyString => false
  | String a EmptyString => Ascii.eqb a c
  | String _ s' => endswith s' c
  end.

(** [posixpath.join(a, *p)] *)
Definition join1 (path b : string) : string :=
  if String.prefix "/" b then b
  else if negb (truthy path) || endswith path "/"
       then path +:+ b
       else path +:+ "/" +:+ b.

Definition join (a : string) (p : list string) : string :=
  fold_left join1 p a.

(** [ntpath.join(a, *p)], the [os.path.join] of a Windows host, for operands
    that carry no drive letter and no UNC prefix: both separators end a
    component, and a backslash is the one inserted. *)
Definition is_nt_sep (c : ascii) : bool :=
  Ascii.eqb c (ascii_of_nat 92) || Ascii.eqb c "/"%char.

Definition starts_with_nt_sep (s : string) : bool :=
  match s with
  | EmptyString => false
  | String c _ => is_nt_sep c
  end.

Fixpoint ends_with_nt_sep (s : string) : bool :=
  match s with
  | EmptyString => false
  | String a EmptyString => is_nt_sep a
  | String _ s' => ends_with_nt_sep s'
  end.

Definition ntpath_join1 (path b : string) : string :=
  if starts_with_nt_sep b then b
  else if truthy path && negb (ends_with_nt_sep path)
       then path +:+ String (ascii_of_nat 92) EmptyString +:+ b
       else path +:+ b.

Definition ntpath_join (a : string) (p : list string) : string :=
  fold_left ntpath_join1 p a.

End Py.

(** The machine that runs the recipe decides which module [os.path] is. *)
Inductive Host : Type :=
| PosixHost
| WindowsHost.

Definition os_path_join (host : Host) (a : string) (p : list string) : string :=
  match host with
  | PosixHost => Py.join a p
  | WindowsHost => Py.ntpath_join a p
  end.

(** [os.sep] *)
Definition os_sep (host : Host) : string :=
  match host with
  | PosixHost => "/"
  | WindowsHost => String (ascii_of_nat 92) EmptyString
  end.

(** ** Settings, options and dependencies of a recipe instance *)

Record Settings : Type := {
  os : string;
  arch : string;
  build_type : string;
  compiler : string;
  compiler_version : string;
  compiler_cppstd : option string;   (* [get_safe("cppstd")] *)
  compiler_runtime_flag : string;    (* what [msvc_runtime_flag] reads off compiler.runtime *)
  is_cross_building : bool           (* build machine differs from the host *)
}.

(** [fPIC] is [None] once [rm_safe("fPIC")] has removed it. *)
Record Options : Type := {
  shared : bool;
  fPIC : option bool
}.

Record Dependency : Type := {
  package_folder : string;
  dep_build_type : string
}.

(** A source tree: file path to file content. *)
Abbreviation tree := (gmap string string).

Record ConanFile : Type := {
  settings : Settings;
  options : Options;
  dependencies : gmap string Dependency;        (* host scope *)
  dependencies_build : gmap string Dependency;  (* build scope *)
  source_folder : string
}.

(** ** The helpers imported from the [conan] package *)

Module Conan.

(** [conan.tools.scm.Version]: dot-separated items, each an integer when it
    reads as one and a string otherwise; trailing zero items do not count;
    items compare as integers, or as text when either is not an integer.
    Compiler versions carry no pre-release or build qualifier. *)
Inductive VersionItem : Type :=
| VInt (n : N)
| VStr (s : string).

Definition item_of_string (s : string) : VersionItem :=
  match NilZero.uint_of_string s with
  | Some u => VInt (N.of_uint u)
  | None => VStr s
  end.

Definition item_str (i : VersionItem) : string :=
  match i with
  | VInt n => NilZero.string_of_uint (N.to_uint n)
  | VStr s => s
  end.

Definition item_eqb (a b : VersionItem) : bool :=
  match a, b with
  | VInt x, VInt y => N.eqb x y
  | VStr x, VStr y => String.eqb x y
  | _, _ => false
  end.

Definition item_ltb (a b : VersionItem) : bool :=
  match a, b with
  | VInt x, VInt y => N.ltb x y
  | _, _ => String.ltb (item_str a) (item_str b)
  end.

Definition is_zero (i : VersionItem) : bool :=
  match i with VInt 0%N => true | _ => false end.

Fixpoint strip_zeros (l : list VersionItem) : list VersionItem :=
  match l with
  | [] => []
  | i :: l' =>
      match strip_zeros l' with
      | [] => if is_zero i then [] else [i]
      | r => i :: r
      end
  end.

Definition Version (s : string) : list VersionItem :=
  strip_zeros (map item_of_string (Py.split s "."%char)).

(** Tuple order on the non-zero items. *)
Fixpoint items_ltb (a b : list VersionItem) : bool :=
  match a, b with
  | [], [] => false
  | [], _ :: _ => true
  | _ :: _, [] => false
  | x :: a', y :: b' =>
      if item_eqb x y then items_ltb a' b' else item_ltb x y
  end.

Definition Version_lt (a b : list VersionItem) : bool := items_ltb a b.

(** [conan.tools.build.check_min_cppstd(conanfile, cppstd)] *)
Definition extract_cpp_version (cppstd : string) : string :=
  Py.replace cppstd "gnu" "".

Definition add_millennium (cppstd : string) : string :=
  if String.eqb cppstd "98" then "19" +:+ cppstd else "20" +:+ cppstd.

Definition check_min_cppstd (st : Settings) (cppstd : string) : result unit :=
  match compiler_cppstd st with
  | None =>
      Raise (ConanInvalidConfiguration
               "The compiler.cppstd is not defined for this configuration")
  | Some current =>
      if String.ltb (add_millennium (extract_cpp_version current))
                    (add_millennium (extract_cpp_version cppstd))
      then Raise (ConanInvalidConfiguration
                    ("Current cppstd (" +:+ current
                     +:+ ") is lower than the required C++ standard ("
                     +:+ cppstd +:+ ")."))
      else Ok tt
  end.

(** [conan.tools.microsoft.is_msvc] *)
Definition is_msvc (st : Settings) : bool :=
  Py.elem (compiler st) ["Visual Studio"; "msvc"].

(** [conan.tools.microsoft.is_msvc_static_runtime] *)
Definition is_msvc_static_runtime (st : Settings) : bool :=
  is_msvc st && Py.contains "MT" (compiler_runtime_flag st).

(** [conan.tools.apple.is_apple_os] *)
Definition is_apple_os (st : Settings) : bool :=
  Py.elem (os st) ["Macos"; "iOS"; "watchOS"; "tvOS"; "visionOS"].

(** [conan.tools.build.cross_building] *)
Definition cross_building (st : Settings) : bool := is_cross_building st.

(** [conan.tools.files.replace_in_file(conanfile, file_path, search, replace,
    strict)]: loads the file, raises when the pattern is missing and [strict]
    holds, only warns (and writes nothing) when it is missing and [strict]
    does not hold, and otherwise saves the file with every occurrence
    replaced. The recipe discards the returned flag. *)
Definition replace_in_file (fs : tree) (file_path search replace : string)
    (strict : bool) : result tree :=
  match fs !! file_path with
  | None => Raise (FileNotFoundError file_path)
  | Some content =>
      if Py.find content search =? -1 then
        let message := "replace_in_file didn't find pattern '" +:+ search
                       +:+ "' in '" +:+ file_path +:+ "' file." in
        if strict then Raise (ConanException message) else Ok fs
      else Ok (<[file_path := Py.replace content search replace]> fs)
  end.

End Conan.

(** ** The recipe *)

Definition _minimum_compilers_version : gmap string string :=
  list_to_map
    [ ("Visual Studio", "14");
      ("msvc", "192");
      ("gcc", "8");
      ("clang", "7");
      ("apple-clang", "10") ].

Definition validate (self : ConanFile) : result unit :=
  (if Py.truthy_opt (compiler_cppstd (settings self))
   then Conan.check_min_cppstd (settings self) "17"
   else Ok tt) ;;
  let compiler_name := compiler (settings self) in
  match _minimum_compilers_version !! compiler_name with
  | Some minimum_version =>
      if Py.truthy minimum_version
         && Conan.Version_lt (Conan.Version (compiler_version (settings self)))
                             (Conan.Version minimum_version)
      then Raise (ConanInvalidConfiguration
                    ("Requires compiler " +:+ compiler_name
                     +:+ " minimum version: " +:+ minimum_version
                     +:+ " with C++17 support."))
      else Ok tt
  | None => Ok tt
  end.

(** *** Options *)

Definition default_options : Options := {| shared := false; fPIC := Some true |}.

Definition rm_safe_fPIC (o : Options) : Options :=
  {| shared := shared o; fPIC := None |}.

Definition with_options (self : ConanFile) (o : Options) : ConanFile :=
  {| settings := settings self; options := o;
     dependencies := dependencies self;
     dependencies_build := dependencies_build self;
     source_folder := source_folder self |}.

Definition config_options (self : ConanFile) : ConanFile :=
  if String.eqb (os (settings self)) "Windows"
  then with_options self (rm_safe_fPIC (options self))
  else self.

Definition configure (self : ConanFile) : ConanFile :=
  if shared (options self)
  then with_options self (rm_safe_fPIC (options self))
  else self.

(** *** Dependency folders and the CMake cache variables *)

Definition backslash : string := String (ascii_of_nat 92) EmptyString.
Definition dquote : string := String (ascii_of_nat 34) EmptyString.
Definition newline : string := String (ascii_of_nat 10) EmptyString.

Definition _package_folder_dep (self : ConanFile) (dep scope : string) : result string :=
  if String.eqb scope "build" then
    match dependencies_build self !! dep with
    | Some d => Ok (Py.replace (package_folder d) backslash "/")
    | None => Raise (KeyError dep)
    end
  else
    match dependencies self !! dep with
    | Some d => Ok (Py.replace (package_folder d) backslash "/")
    | None => Raise (KeyError dep)
    end.

Inductive CacheValue : Type :=
| CStr (s : string)
| CBool (b : bool).

Definition generate (self : ConanFile) : result (gmap string CacheValue) :=
  let cache_variables : gmap string CacheValue := ∅ in
  ssl ← _package_folder_dep self "openssl" "host";
  let cache_variables := <["WITH_SSL" := CStr ssl]> cache_variables in
  lz4 ← _package_folder_dep self "lz4" "host";
  let cache_variables := <["WITH_LZ4" := CStr lz4]> cache_variables in
  zlib ← _package_folder_dep self "zlib" "host";
  let cache_variables := <["WITH_ZLIB" := CStr zlib]> cache_variables in
  zstd ← _package_folder_dep self "zstd" "host";
  let cache_variables := <["WITH_ZSTD" := CStr zstd]> cache_variables in
  let cache_variables :=
    <["BUILD_STATIC" := CBool (negb (shared (options self)))]> cache_variables in
  let cache_variables :=
    <["BUILD_SHARED_LIBS" := CBool (shared (options self))]> cache_variables in
  let cache_variables := <["BOOST_DIR" := CStr "FALSE"]> cache_variables in
  protobuf ← _package_folder_dep self "protobuf" "build";
  let cache_variables := <["WITH_PROTOBUF" := CStr protobuf]> cache_variables in
  Ok cache_variables.

(** *** Source patches *)

Definition install_layout_cmake (self : ConanFile) : string :=
  Py.join (source_folder self) ["install_layout.cmake"].
Definition root_CMakeLists (self : ConanFile) : string :=
  Py.join (source_folder self) ["CMakeLists.txt"].
Definition DepFindProtobuf_cmake (self : ConanFile) : string :=
  Py.join (source_folder self) ["cdk"; "cmake"; "DepFindProtobuf.cmake"].
Definition mysqlx_CMakeLists (self : ConanFile) : string :=
  Py.join (source_folder self) ["cdk"; "protocol"; "mysqlx"; "CMakeLists.txt"].
Definition core_CMakeLists (self : ConanFile) : string :=
  Py.join (source_folder self) ["cdk"; "core"; "CMakeLists.txt"].

Definition lib_name_static_old : string :=
  "set(LIB_NAME_STATIC " +:+ dquote +:+ "${LIB_NAME}-mt" +:+ dquote +:+ ")".
Definition lib_name_static_new : string :=
  "set(LIB_NAME_STATIC " +:+ dquote +:+ "${LIB_NAME_STATIC}-mt" +:+ dquote +:+ ")".

Definition osx_architectures_patch (self : ConanFile) : string :=
  "set(CMAKE_OSX_ARCHITECTURES " +:+ dquote +:+ arch (settings self) +:+ dquote
  +:+ " CACHE INTERNAL " +:+ dquote +:+ dquote +:+ " FORCE)" +:+ newline.

(** [_patch_sources]: the two tolerant rules, each behind its gate, then the
    four protobuf substitutions with the default [strict=True]. *)
Definition _patch_sources (self : ConanFile) (fs : tree) : result tree :=
  (* Fix static lib naming *)
  fs ← (if negb (shared (options self)) && Conan.is_msvc (settings self) then
          Conan.replace_in_file fs (install_layout_cmake self)
            lib_name_static_old lib_name_static_new false
        else Ok fs);
  (* Apple patches *)
  fs ← (if Conan.is_apple_os (settings self) && Conan.cross_building (settings self) then
          let patch := osx_architectures_patch self in
          Conan.replace_in_file fs (root_CMakeLists self)
            "PROJECT(MySQL_CONCPP)"
            ("PROJECT(MySQL_CONCPP)" +:+ newline +:+ patch) false
        else Ok fs);
  (* Protobuf patches *)
  protobuf ← match dependencies_build self !! "protobuf" with
             | Some d => Ok (if String.eqb (dep_build_type d) "Debug"
                             then "protobufd" else "protobuf")
             | None => Raise (KeyError "protobuf")
             end;
  fs ← Conan.replace_in_file fs (DepFindProtobuf_cmake self)
         "LIBRARY protobuf-lite pb_libprotobuf-lite" "" true;
  fs ← Conan.replace_in_file fs (DepFindProtobuf_cmake self)
         "LIBRARY protobuf" ("LIBRARY " +:+ protobuf) true;
  fs ← Conan.replace_in_file fs (mysqlx_CMakeLists self)
         "ext::protobuf-lite" ("ext::" +:+ protobuf) true;
  Conan.replace_in_file fs (core_CMakeLists self)
    "ext::protobuf-lite" ("ext::" +:+ protobuf) true.

(** *** Consumption metadata *)

Inductive Property : Type :=
| PStr (s : string)
| PList (l : list string).

Record CppInfo : Type := {
  libdirs : list string;
  system_libs : list string;
  libs : list string;
  defines : list string;
  properties : gmap string Property
}.

Definition new_cpp_info : CppInfo :=
  {| libdirs := ["lib"]; system_libs := []; libs := []; defines := [];
     properties := ∅ |}.

Definition set_libdirs (c : CppInfo) (v : list string) : CppInfo :=
  {| libdirs := v; system_libs := system_libs c; libs := libs c;
     defines := defines c; properties := properties c |}.
Definition extend_system_libs (c : CppInfo) (v : list string) : CppInfo :=
  {| libdirs := libdirs c; system_libs := system_libs c ++ v; libs := libs c;
     defines := defines c; properties := properties c |}.
Definition set_libs (c : CppInfo) (v : list string) : CppInfo :=
  {| libdirs := libdirs c; system_libs := system_libs c; libs := v;
     defines := defines c; properties := properties c |}.
Definition set_defines (c : CppInfo) (v : list string) : CppInfo :=
  {| libdirs := libdirs c; system_libs := system_libs c; libs := libs c;
     defines := v; properties := properties c |}.
Definition set_property (c : CppInfo) (k : string) (v : Property) : CppInfo :=
  {| libdirs := libdirs c; system_libs := system_libs c; libs := libs c;
     defines := defines c; properties := <[k := v]> (properties c) |}.

Definition package_info (host : Host) (self : ConanFile) : CppInfo :=
  let st := settings self in
  let op := options self in
  let cpp_info := new_cpp_info in
  (* Lib dir *)
  let lib_dir :=
    if String.eqb (build_type st) "Release" then ["lib"]
    else [os_path_join host "lib" ["debug"]] in
  let lib_dir :=
    if Conan.is_msvc st then [os_path_join host (hd EmptyString lib_dir) ["vs14"]]
    else lib_dir in
  let cpp_info := set_libdirs cpp_info lib_dir in
  let cpp_info :=
    if Conan.is_apple_os st || Py.elem (os st) ["Linux"; "FreeBSD"] then
      let cpp_info := extend_system_libs cpp_info ["resolv"] in
      if Py.elem (os st) ["Linux"; "FreeBSD"]
      then extend_system_libs cpp_info ["m"; "pthread"]
      else cpp_info
    else cpp_info in
  let target := "concpp-xdevapi" in
  let target_alias := "concpp" in
  let '(target, target_alias) :=
    if shared op then (target +:+ "-static", target_alias +:+ "-static")
    else (target, target_alias) in
  let '(target, target_alias) :=
    if String.eqb (build_type st) "Debug"
    then (target +:+ "-debug", target_alias +:+ "-debug")
    else (target, target_alias) in
  let cpp_info := set_property cpp_info "cmake_target_name" (PStr "mysql::concpp") in
  let cpp_info :=
    set_property cpp_info "cmake_target_aliases" (PList ["mysql::" +:+ target_alias]) in
  let lib := if shared op then "mysqlcppconnx" else "mysqlcppconnx-static" in
  let lib :=
    if Conan.is_msvc st && negb (shared op) && Conan.is_msvc_static_runtime st
    then lib +:+ "-mt" else lib in
  let cpp_info := set_libs cpp_info [lib] in
  if negb (shared op) then
    let cpp_info := set_defines cpp_info ["MYSQL_STATIC"] in
    set_defines cpp_info ["STATIC_CONCPP"]
  else cpp_info.

(** ** Notions used to state the properties *)

(** The folder prefix that [posixpath.join] puts before a relative name. *)
Definition folder_prefix (folder : string) : string :=
  if negb (Py.truthy folder) || Py.endswith folder "/" then folder
  else folder +:+ "/".

(** The three blocks of [_patch_sources], each on its own: the static
    lib naming fix, *)
Definition patch_static_lib_naming (self : ConanFile) (fs : tree) : result tree :=
  if negb (shared (options self)) && Conan.is_msvc (settings self) then
    Conan.replace_in_file fs (install_layout_cmake self)
      lib_name_static_old lib_name_static_new false
  else Ok fs.

(** the Apple patch, *)
Definition patch_apple (self : ConanFile) (fs : tree) : result tree :=
  if Conan.is_apple_os (settings self) && Conan.cross_building (settings self) then
    let patch := osx_architectures_patch self in
    Conan.replace_in_file fs (root_CMakeLists self)
      "PROJECT(MySQL_CONCPP)"
      ("PROJECT(MySQL_CONCPP)" +:+ newline +:+ patch) false
  else Ok fs.

(** and the protobuf patches. *)
Definition protobuf_name (self : ConanFile) : result string :=
  match dependencies_build self !! "protobuf" with
  | Some d => Ok (if String.eqb (dep_build_type d) "Debug" then "protobufd" else "protobuf")
  | None => Raise (KeyError "protobuf")
  end.

Definition patch_protobuf (self : ConanFile) (fs : tree) : result tree :=
  protobuf ← protobuf_name self;
  fs ← Conan.replace_in_file fs (DepFindProtobuf_cmake self)
         "LIBRARY protobuf-lite pb_libprotobuf-lite" "" true;
  fs ← Conan.replace_in_file fs (DepFindProtobuf_cmake self)
         "LIBRARY protobuf" ("LIBRARY " +:+ protobuf) true;
  fs ← Conan.replace_in_file fs (mysqlx_CMakeLists self)
         "ext::protobuf-lite" ("ext::" +:+ protobuf) true;
  Conan.replace_in_file fs (core_CMakeLists self)
    "ext::protobuf-lite" ("ext::" +:+ protobuf) true.

(** The (file, find-text) pairs of the replacements that keep the default
    [strict=True]: the protobuf name substitutions. *)
Definition strict_rules (self : ConanFile) : list (string * string) :=
  [ (DepFindProtobuf_cmake self, "LIBRARY protobuf-lite pb_libprotobuf-lite");
    (DepFindProtobuf_cmake self, "LIBRARY protobuf");
    (mysqlx_CMakeLists self, "ext::protobuf-lite");
    (core_CMakeLists self, "ext::protobuf-lite") ].

(** The language-standard gate of [validate] lets the configuration through:
    no [cppstd] is declared, or the declared one meets C++17. *)
Definition cppstd_accepted (self : ConanFile) : bool :=
  negb (Py.truthy_opt (compiler_cppstd (settings self)))
  || is_ok (Conan.check_min_cppstd (settings self) "17").

Definition below_minimum (self : ConanFile) (minimum_version : string) : bool :=
  Conan.Version_lt (Conan.Version (compiler_version (settings self)))
                   (Conan.Version minimum_version).

Definition unsupported_compiler (compiler_name minimum_version : string) : exception :=
  ConanInvalidConfiguration
    ("Requires compiler " +:+ compiler_name +:+ " minimum version: "
     +:+ minimum_version +:+ " with C++17 support.").

(** Conan calls [config_options] and then [configure] on the recipe; the
    options that remain are the effective option set. *)
Definition effective_options (self : ConanFile) : Options :=
  options (configure (config_options self)).

Definition flag_set (vars : gmap string CacheValue) (key : string) : bool :=
  match vars !! key with
  | Some (CBool true) => true
  | _ => false
  end.

Definition dependencies_resolved (self : ConanFile) : Prop :=
  is_Some (dependencies self !! "openssl") /\
  is_Some (dependencies self !! "lz4") /\
  is_Some (dependencies self !! "zlib") /\
  is_Some (dependencies self !! "zstd") /\
  is_Some (dependencies_build self !! "protobuf").

(** ** The rest of the recipe *)

(** [requirements] and [build_requirements]: the references handed to
    [self.requires] and to [self.tool_requires]. *)
Definition requirements : list string :=
  [ "openssl/[>=1.1 <4]";
    "zlib/[>=1.2.11 <2]";
    "protobuf/3.21.12";
    "zstd/[>=1.5 <1.6]";
    "lz4/1.10.0" ].

Definition build_requirements : list string :=
  [ "protobuf/<host_version>" ].

(** The package name of a reference: the text before the first slash. *)
Definition reference_name (ref : string) : string :=
  hd EmptyString (Py.split ref "/"%char).

(** [build]: the patches, then the configure and build steps of the CMake
    helper, which are outside the recipe and stay abstract. *)
Section Build.

Variable cmake_configure cmake_build : ConanFile -> tree -> result tree.

Definition build (self : ConanFile) (fs : tree) : result tree :=
  fs ← _patch_sources self fs;
  fs ← cmake_configure self fs;
  cmake_build self fs.

End Build.

(** A path without a backslash. *)
Definition forward_slashed (s : string) : Prop := Py.find s backslash = -1.

(** The declared requirements are all in the dependency store, each in its
    scope. *)
Definition requirements_resolved (self : ConanFile) : Prop :=
  (forall ref, In ref requirements ->
               is_Some (dependencies self !! reference_name ref)) /\
  (forall ref, In ref build_requirements ->
               is_Some (dependencies_build self !! reference_name ref)).

(** The five files that [_patch_sources] may rewrite. *)
Definition patched_files (self : ConanFile) : list string :=
  [ install_layout_cmake self; root_CMakeLists self; DepFindProtobuf_cmake self;
    mysqlx_CMakeLists self; core_CMakeLists self ].

(** The gates of the two tolerant rules. *)
Definition static_naming_gate (self : ConanFile) : bool :=
  negb (shared (options self)) && Conan.is_msvc (settings self).

Definition apple_gate (self : ConanFile) : bool :=
  Conan.is_apple_os (settings self) && Conan.cross_building (settings self).

(** Everything [_patch_sources] reads is there: the build-scope protobuf,
    the target of each tolerant rule whose gate is open, and the three
    protobuf files. *)
Definition patch_inputs_present (self : ConanFile) (fs : tree) : Prop :=
  is_Some (dependencies_build self !! "protobuf") /\
  (static_naming_gate self = true -> is_Some (fs !! install_layout_cmake self)) /\
  (apple_gate self = true -> is_Some (fs !! root_CMakeLists self)) /\
  is_Some (fs !! DepFindProtobuf_cmake self) /\
  is_Some (fs !! mysqlx_CMakeLists self) /\
  is_Some (fs !! core_CMakeLists self).

(** A step either returns a tree with the files [D], or raises the
    [ConanException] of a missing pattern. *)
Definition ok_or_pattern_missing (D : gset string) (r : result tree) : Prop :=
  (exists t, r = Ok t /\ dom t = D) \/ (exists msg, r = Raise (ConanException msg)).

(** What a replacement leaves in a file: the text unchanged when the pattern
    is missing, every occurrence replaced otherwise. *)
Definition replaced (content search replace : string) : string :=
  if Py.find content search =? -1 then content
  else Py.replace content search replace.

(** ** Sample configurations and source trees *)

Definition mk_settings (o c v : string) (std : option string) (bt : string)
    (flag : string) (cross : bool) : Settings :=
  {| os := o; arch := "armv8"; build_type := bt; compiler := c;
     compiler_version := v; compiler_cppstd := std;
     compiler_runtime_flag := flag; is_cross_building := cross |}.

Definition sample_dependencies : gmap string Dependency :=
  list_to_map
    [ ("openssl", {| package_folder := "/p/openssl"; dep_build_type := "Release" |});
      ("lz4", {| package_folder := "/p/lz4"; dep_build_type := "Release" |});
      ("zlib", {| package_folder := "/p/zlib"; dep_build_type := "Release" |});
      ("zstd", {| package_folder := "/p/zstd"; dep_build_type := "Release" |});
      ("protobuf", {| package_folder := "/p/protobuf"; dep_build_type := "Release" |}) ].

Definition mk_self (st : Settings) (op : Options) : ConanFile :=
  {| settings := st; options := op;
     dependencies := sample_dependencies;
     dependencies_build :=
       {[ "protobuf" := {| package_folder := "C:" +:+ backslash +:+ "p" +:+ backslash +:+ "protoc";
                           dep_build_type := "Debug" |} ]};
     source_folder := "/src" |}.

Definition static_options : Options := default_options.
Definition shared_options : Options := {| shared := true; fPIC := Some true |}.

Definition linux_gcc9 : ConanFile :=
  mk_self (mk_settings "Linux" "gcc" "9" None "Release" "" false) static_options.
Definition linux_gcc7 : ConanFile :=
  mk_self (mk_settings "Linux" "gcc" "7.5" (Some "gnu17") "Release" "" false) static_options.
Definition windows_msvc191 : ConanFile :=
  mk_self (mk_settings "Windows" "msvc" "191" None "Release" "MD" false) static_options.
Definition windows_msvc_mt_debug : ConanFile :=
  mk_self (mk_settings "Windows" "msvc" "193" None "Debug" "MTd" false) static_options.
Definition linux_intel_cpp14 : ConanFile :=
  mk_self (mk_settings "Linux" "intel-cc" "2021.3" (Some "14") "Release" "" false) static_options.
Definition linux_intel : ConanFile :=
  mk_self (mk_settings "Linux" "intel-cc" "0.1" None "Release" "" false) static_options.
Definition macos_cross : ConanFile :=
  mk_self (mk_settings "Macos" "apple-clang" "15" None "Release" "" true) shared_options.

(** Stores with a hole: zstd missing from the host scope, protobuf missing
    from the build scope. *)
Definition without_zstd : ConanFile :=
  {| settings := settings linux_gcc9; options := static_options;
     dependencies := delete "zstd" sample_dependencies;
     dependencies_build := dependencies_build linux_gcc9;
     source_folder := "/src" |}.

Definition without_build_protobuf : ConanFile :=
  {| settings := settings linux_gcc9; options := static_options;
     dependencies := sample_dependencies;
     dependencies_build := ∅;
     source_folder := "/src" |}.

(** The variable set of the macOS cross build. *)
Definition macos_cross_variables : gmap string CacheValue :=
  list_to_map
    [ ("WITH_SSL", CStr "/p/openssl"); ("WITH_LZ4", CStr "/p/lz4");
      ("WITH_ZLIB", CStr "/p/zlib"); ("WITH_ZSTD", CStr "/p/zstd");
      ("BUILD_STATIC", CBool false); ("BUILD_SHARED_LIBS", CBool true);
      ("BOOST_DIR", CStr "FALSE"); ("WITH_PROTOBUF", CStr "C:/p/protoc") ].

Definition windows_clang_debug : ConanFile :=
  mk_self (mk_settings "Windows" "clang" "16" None "Debug" "" false) static_options.

Definition linux_gcc9_relwithdebinfo : ConanFile :=
  mk_self (mk_settings "Linux" "gcc" "9" None "RelWithDebInfo" "" false) static_options.

(** An upstream checkout that carries every text the patches look for. *)
Definition upstream_tree (self : ConanFile) : tree :=
  <[install_layout_cmake self := lib_name_static_old +:+ newline]>
  (<[root_CMakeLists self := "PROJECT(MySQL_CONCPP)" +:+ newline]>
  (<[DepFindProtobuf_cmake self :=
       "LIBRARY protobuf-lite pb_libprotobuf-lite" +:+ newline
       +:+ "LIBRARY protobuf pb_libprotobuf" +:+ newline]>
  (<[mysqlx_CMakeLists self := "ext::protobuf-lite"]>
  (<[core_CMakeLists self := "ext::protobuf-lite"]> ∅)))).

(** The same checkout after upstream dropped the two texts of the tolerant rules. *)
Definition drifted_tree (self : ConanFile) : tree :=
  <[install_layout_cmake self := "set(LIB_NAME_STATIC mysqlcppconn-static-mt)"]>
  (<[root_CMakeLists self := "project(MySQL_CONCPP)" +:+ newline]>
  (upstream_tree self)).

(** A checkout whose core CMakeLists no longer names protobuf-lite. *)
Definition incompatible_tree (self : ConanFile) : tree :=
  <[core_CMakeLists self := "ext::protobuf"]> (upstream_tree self).

(** ** Facts about the string operations *)

Section StringFacts.

Lemma append_cons (c : ascii) (a b : string) :
  String c a +:+ b = String c (a +:+ b).
Proof. reflexivity. Qed.

Lemma append_assoc (a b c : string) : (a +:+ b) +:+ c = a +:+ (b +:+ c).
Proof.
  induction a as [|x a IH]; [reflexivity|].
  rewrite !append_cons. by rewrite IH.
Qed.

Lemma prefix_append_l (a b s : string) :
  String.prefix (a +:+ b) s = true -> String.prefix a s = true.
Proof.
  revert s. induction a as [|x a IH]; intros s H.
  - by destruct s.
  - rewrite append_cons in H. destruct s as [|y s]; simpl in *; [done|].
    destruct (ascii_dec x y); [by apply IH | done].
Qed.

Lemma find_from_unfold (i : Z) (s sub : string) :
  Py.find_from i s sub =
    if String.prefix sub s then i
    else match s with
         | EmptyString => -1
         | String _ s' => Py.find_from (i + 1) s' sub
         end.
Proof. by destruct s. Qed.

(** A text that lacks [a] lacks every text that starts with [a]. *)
Lemma find_from_append (a b s : string) (i : Z) :
  0 <= i -> Py.find_from i s a = -1 -> Py.find_from i s (a +:+ b) = -1.
Proof.
  revert i. induction s as [|c s IH]; intros i Hi H;
    rewrite find_from_unfold in H; rewrite find_from_unfold.
  - destruct (String.prefix a "") eqn:Ha; [lia|].
    destruct (String.prefix (a +:+ b) "") eqn:Hab; [|done].
    apply prefix_append_l in Hab. congruence.
  - destruct (String.prefix a (String c s)) eqn:Ha; [lia|].
    destruct (String.prefix (a +:+ b) (String c s)) eqn:Hab.
    + apply prefix_append_l in Hab. congruence.
    + apply IH; [lia | done].
Qed.

Lemma find_append (a b s : string) :
  Py.find s a = -1 -> Py.find s (a +:+ b) = -1.
Proof. apply find_from_append. lia. Qed.

Lemma truthy_append_r (a b : string) :
  Py.truthy b = true -> Py.truthy (a +:+ b) = true.
Proof. destruct a, b; done. Qed.

Lemma endswith_append (a b : string) (c : ascii) :
  Py.truthy b = true -> Py.endswith (a +:+ b) c = Py.endswith b c.
Proof.
  intros Hb. induction a as [|x a IH]; [done|].
  rewrite append_cons. simpl.
  destruct (a +:+ b) eqn:E; [|done].
  destruct a, b; done.
Qed.

End StringFacts.

(** ** Facts about the paths of the patched files *)

Section Paths.

Lemma join1_folder (folder name : string) :
  String.prefix "/" name = false ->
  Py.join1 folder name = folder_prefix folder +:+ name.
Proof.
  intros H. unfold Py.join1, folder_prefix. rewrite H.
  destruct (negb (Py.truthy folder) || Py.endswith folder "/"); [done|].
  by rewrite append_assoc.
Qed.

Lemma join1_nested (pre dir name : string) :
  Py.truthy dir = true -> Py.endswith dir "/" = false ->
  String.prefix "/" name = false ->
  Py.join1 (pre +:+ dir) name = pre +:+ (dir +:+ "/" +:+ name).
Proof.
  intros Ht He Hn. unfold Py.join1. rewrite Hn.
  rewrite truthy_append_r, endswith_append, He by done. simpl.
  by rewrite append_assoc.
Qed.

Variable self : ConanFile.

Lemma install_layout_cmake_eq :
  install_layout_cmake self = folder_prefix (source_folder self) +:+ "install_layout.cmake".
Proof. unfold install_layout_cmake, Py.join. simpl. by rewrite join1_folder. Qed.

Lemma root_CMakeLists_eq :
  root_CMakeLists self = folder_prefix (source_folder self) +:+ "CMakeLists.txt".
Proof. unfold root_CMakeLists, Py.join. simpl. by rewrite join1_folder. Qed.

Lemma DepFindProtobuf_cmake_eq :
  DepFindProtobuf_cmake self = folder_prefix (source_folder self) +:+ "cdk/cmake/DepFindProtobuf.cmake".
Proof.
  unfold DepFindProtobuf_cmake, Py.join. simpl.
  rewrite (join1_folder _ "cdk") by done.
  rewrite (join1_nested _ "cdk" "cmake") by done.
  by rewrite (join1_nested _ "cdk/cmake" "DepFindProtobuf.cmake").
Qed.

Lemma mysqlx_CMakeLists_eq :
  mysqlx_CMakeLists self = folder_prefix (source_folder self) +:+ "cdk/protocol/mysqlx/CMakeLists.txt".
Proof.
  unfold mysqlx_CMakeLists, Py.join. simpl.
  rewrite (join1_folder _ "cdk") by done.
  rewrite (join1_nested _ "cdk" "protocol") by done.
  rewrite (join1_nested _ "cdk/protocol" "mysqlx") by done.
  by rewrite (join1_nested _ "cdk/protocol/mysqlx" "CMakeLists.txt").
Qed.

Lemma core_CMakeLists_eq :
  core_CMakeLists self = folder_prefix (source_folder self) +:+ "cdk/core/CMakeLists.txt".
Proof.
  unfold core_CMakeLists, Py.join. simpl.
  rewrite (join1_folder _ "cdk") by done.
  rewrite (join1_nested _ "cdk" "core") by done.
  by rewrite (join1_nested _ "cdk/core" "CMakeLists.txt").
Qed.

(** The five patched files are pairwise distinct, whatever the source folder. *)
Lemma patched_paths_distinct :
  install_layout_cmake self <> root_CMakeLists self /\
  install_layout_cmake self <> DepFindProtobuf_cmake self /\
  install_layout_cmake self <> mysqlx_CMakeLists self /\
  install_layout_cmake self <> core_CMakeLists self /\
  root_CMakeLists self <> DepFindProtobuf_cmake self /\
  root_CMakeLists self <> mysqlx_CMakeLists self /\
  root_CMakeLists self <> core_CMakeLists self /\
  DepFindProtobuf_cmake self <> mysqlx_CMakeLists self /\
  DepFindProtobuf_cmake self <> core_CMakeLists self /\
  mysqlx_CMakeLists self <> core_CMakeLists self.
Proof.
  rewrite install_layout_cmake_eq, root_CMakeLists_eq, DepFindProtobuf_cmake_eq,
    mysqlx_CMakeLists_eq, core_CMakeLists_eq.
  repeat split; intros H; apply (inj (String.app _)) in H; discriminate H.
Qed.

End Paths.

(** ** Facts about [replace_in_file] and the patch steps *)

Section PatchFacts.

Lemma raises_bind {A B : Type} (m : result A) (k : A -> result B) :
  raises m -> raises (m ≫= k).
Proof. intros [e ->]. by exists e. Qed.

Lemma raises_Raise {A : Type} (e : exception) : raises (@Raise A e).
Proof. by exists e. Qed.

Lemma replace_in_file_absent_tolerant (fs : tree) (p search repl c : string) :
  fs !! p = Some c -> Py.find c search = -1 ->
  Conan.replace_in_file fs p search repl false = Ok fs.
Proof. intros Hp Hf. unfold Conan.replace_in_file. by rewrite Hp, Hf. Qed.

Lemma replace_in_file_absent_strict (fs : tree) (p search repl c : string) :
  fs !! p = Some c -> Py.find c search = -1 ->
  raises (Conan.replace_in_file fs p search repl true).
Proof.
  intros Hp Hf. unfold Conan.replace_in_file. rewrite Hp, Hf.
  apply raises_Raise.
Qed.

(** A replacement writes to its own file only. *)
Lemma replace_in_file_other (fs fs' : tree) (p search repl q : string) (b : bool) :
  Conan.replace_in_file fs p search repl b = Ok fs' -> q <> p ->
  fs' !! q = fs !! q.
Proof.
  unfold Conan.replace_in_file. intros H Hq.
  destruct (fs !! p) as [c|]; [|done].
  destruct (Py.find c search =? -1).
  - destruct b; [done|]. by injection H as <-.
  - injection H as <-. by rewrite lookup_insert_ne.
Qed.

Lemma _patch_sources_blocks (self : ConanFile) (fs : tree) :
  _patch_sources self fs =
    (fs ← patch_static_lib_naming self fs;
     fs ← patch_apple self fs;
     patch_protobuf self fs).
Proof.
  unfold _patch_sources, patch_static_lib_naming, patch_apple, patch_protobuf,
    protobuf_name.
  destruct (if negb (shared (options self)) && Conan.is_msvc (settings self)
            then _ else _) as [fs1|]; [simpl|done].
  destruct (if Conan.is_apple_os (settings self) && Conan.cross_building (settings self)
            then _ else _) as [fs2|]; [simpl|done].
  by destruct (dependencies_build self !! "protobuf").
Qed.

Variable self : ConanFile.

Lemma patch_static_lib_naming_other (fs fs' : tree) (q : string) :
  patch_static_lib_naming self fs = Ok fs' -> q <> install_layout_cmake self ->
  fs' !! q = fs !! q.
Proof.
  unfold patch_static_lib_naming. intros H Hq.
  destruct (negb (shared (options self)) && Conan.is_msvc (settings self)).
  - by eapply replace_in_file_other.
  - by injection H as <-.
Qed.

Lemma patch_apple_other (fs fs' : tree) (q : string) :
  patch_apple self fs = Ok fs' -> q <> root_CMakeLists self ->
  fs' !! q = fs !! q.
Proof.
  unfold patch_apple. intros H Hq.
  destruct (Conan.is_apple_os (settings self) && Conan.cross_building (settings self)).
  - by eapply replace_in_file_other.
  - by injection H as <-.
Qed.

Lemma patch_protobuf_other (fs fs' : tree) (q : string) :
  patch_protobuf self fs = Ok fs' ->
  q <> DepFindProtobuf_cmake self -> q <> mysqlx_CMakeLists self ->
  q <> core_CMakeLists self ->
  fs' !! q = fs !! q.
Proof.
  unfold patch_protobuf. intros H H1 H2 H3.
  destruct (protobuf_name self) as [pb|]; [simpl in H|done].
  destruct (Conan.replace_in_file fs _ _ _ _) as [fs1|] eqn:E1; [simpl in H|done].
  destruct (Conan.replace_in_file fs1 _ _ _ _) as [fs2|] eqn:E2; [simpl in H|done].
  destruct (Conan.replace_in_file fs2 _ _ _ _) as [fs3|] eqn:E3; [simpl in H|done].
  rewrite (replace_in_file_other _ _ _ _ _ _ _ H H3).
  rewrite (replace_in_file_other _ _ _ _ _ _ _ E3 H2).
  rewrite (replace_in_file_other _ _ _ _ _ _ _ E2 H1).
  by rewrite (replace_in_file_other _ _ _ _ _ _ _ E1 H1).
Qed.

Lemma patch_protobuf_strict (fs : tree) (p search c : string) :
  In (p, search) (strict_rules self) -> fs !! p = Some c -> Py.find c search = -1 ->
  raises (patch_protobuf self fs).
Proof.
  intros Hin Hp Hf. unfold patch_protobuf.
  destruct (patched_paths_distinct self) as (_ & _ & _ & _ & _ & _ & _ & D1 & D2 & D3).
  destruct (protobuf_name self) as [pb|]; [simpl|apply raises_Raise].
  assert (In (p, search) (strict_rules self)) as Hin' by done.
  destruct Hin as [[= <- <-]|[[= <- <-]|Hin]].
  { apply raises_bind. by eapply replace_in_file_absent_strict. }
  { apply raises_bind. eapply replace_in_file_absent_strict; [done|].
    by apply (find_append "LIBRARY protobuf" "-lite pb_libprotobuf-lite"). }
  destruct (Conan.replace_in_file fs _ _ _ _) as [fs1|] eqn:E1;
    [simpl|apply raises_Raise].
  destruct (Conan.replace_in_file fs1 _ _ _ _) as [fs2|] eqn:E2;
    [simpl|apply raises_Raise].
  destruct Hin as [[= <- <-]|[[= <- <-]|[]]].
  - apply raises_bind. eapply replace_in_file_absent_strict; [|done].
    rewrite (replace_in_file_other _ _ _ _ _ _ _ E2) by done.
    by rewrite (replace_in_file_other _ _ _ _ _ _ _ E1).
  - destruct (Conan.replace_in_file fs2 _ _ _ _) as [fs3|] eqn:E3;
      [simpl|apply raises_Raise].
    eapply replace_in_file_absent_strict; [|done].
    rewrite (replace_in_file_other _ _ _ _ _ _ _ E3) by done.
    rewrite (replace_in_file_other _ _ _ _ _ _ _ E2) by done.
    by rewrite (replace_in_file_other _ _ _ _ _ _ _ E1).
Qed.

End PatchFacts.

(** ** The recipe on the sample configurations *)

Section Examples.

Example validate_linux_gcc9 : validate linux_gcc9 = Ok tt.
Proof. reflexivity. Qed.

Example Version_trailing_zero :
  Conan.Version_lt (Conan.Version "8.0") (Conan.Version "8") = false /\
  Conan.Version_lt (Conan.Version "7.5") (Conan.Version "8") = true /\
  Conan.Version_lt (Conan.Version "10") (Conan.Version "8") = false.
Proof. repeat split; reflexivity. Qed.

Example replace_all_occurrences :
  Py.replace "ext::protobuf-lite ext::protobuf-lite" "ext::protobuf-lite" "ext::protobufd"
  = "ext::protobufd ext::protobufd".
Proof. reflexivity. Qed.

Example package_folder_forward_slashes :
  _package_folder_dep macos_cross "protobuf" "build" = Ok "C:/p/protoc".
Proof. vm_compute. reflexivity. Qed.

Example patch_sources_macos_cross_upstream :
  match _patch_sources macos_cross (upstream_tree macos_cross) with
  | Ok fs' =>
      fs' !! root_CMakeLists macos_cross
      = Some ("PROJECT(MySQL_CONCPP)" +:+ newline
              +:+ osx_architectures_patch macos_cross +:+ newline)
      /\ fs' !! DepFindProtobuf_cmake macos_cross
         = Some (newline +:+ "LIBRARY protobufd pb_libprotobuf" +:+ newline)
      /\ fs' !! core_CMakeLists macos_cross = Some "ext::protobufd"
  | Raise _ => False
  end.
Proof. vm_compute. repeat split; reflexivity. Qed.

Example patch_sources_msvc_static_upstream :
  match _patch_sources windows_msvc_mt_debug (upstream_tree windows_msvc_mt_debug) with
  | Ok fs' =>
      fs' !! install_layout_cmake windows_msvc_mt_debug
      = Some (lib_name_static_new +:+ newline)
  | Raise _ => False
  end.
Proof. vm_compute. reflexivity. Qed.

End Examples.

(** ** Toolchain validation *)

Section Validate.

Lemma minimum_version_truthy (c m : string) :
  _minimum_compilers_version !! c = Some m -> Py.truthy m = true.
Proof.
  unfold _minimum_compilers_version. simpl list_to_map.
  rewrite !lookup_insert_Some, lookup_empty.
  intros H. repeat (destruct H as [[_ <-]|[_ H]]; [done|]). done.
Qed.

Lemma check_min_cppstd_invalid (st : Settings) (std : string) :
  forall e, Conan.check_min_cppstd st std = Raise e ->
            exists msg, e = ConanInvalidConfiguration msg.
Proof.
  unfold Conan.check_min_cppstd. intros e H.
  destruct (compiler_cppstd st) as [cur|]; [|injection H as <-; eauto].
  destruct (String.ltb _ _); [injection H as <-; eauto | done].
Qed.

Lemma cppstd_gate_passes (self : ConanFile) :
  cppstd_accepted self = true ->
  (if Py.truthy_opt (compiler_cppstd (settings self))
   then Conan.check_min_cppstd (settings self) "17"
   else Ok tt) = Ok tt.
Proof.
  unfold cppstd_accepted. intros H.
  destruct (Py.truthy_opt _); [|done]. simpl in H.
  by destruct (Conan.check_min_cppstd _ _) as [[]|].
Qed.

End Validate.

(** C1, as the claim words it, fails: a compiler family that the table does
    not list (intel-cc) is still rejected when the profile declares a language
    standard below C++17, because [validate] runs [check_min_cppstd] before it
    looks at the table. *)
Lemma validate_absent_family_rejected :
  _minimum_compilers_version !! compiler (settings linux_intel_cpp14) = None /\
  validate linux_intel_cpp14 =
    Raise (ConanInvalidConfiguration
             "Current cppstd (14) is lower than the required C++ standard (17).").
Proof. split; reflexivity. Qed.

(** C1 (amended): a configuration whose compiler family is in the
    minimum-version table and whose version is strictly below the family's
    minimum is always rejected with [ConanInvalidConfiguration]; whenever the
    language-standard gate lets it through, the error is the one that names
    the compiler and the required minimum. A configuration whose family is not
    in the table is accepted, whatever its version, whenever the
    language-standard gate lets it through: the missing entry is no
    constraint. *)
Theorem validate_minimum_version (self : ConanFile) :
  let compiler_name := compiler (settings self) in
  (forall m, _minimum_compilers_version !! compiler_name = Some m ->
             below_minimum self m = true ->
             exists msg, validate self = Raise (ConanInvalidConfiguration msg)) /\
  (cppstd_accepted self = true ->
   forall m, _minimum_compilers_version !! compiler_name = Some m ->
             below_minimum self m = true ->
             validate self = Raise (unsupported_compiler compiler_name m)) /\
  (cppstd_accepted self = true ->
   _minimum_compilers_version !! compiler_name = None ->
   validate self = Ok tt).
Proof.
  intros compiler_name.
  assert (forall m, _minimum_compilers_version !! compiler_name = Some m ->
            below_minimum self m = true ->
            (if Py.truthy_opt (compiler_cppstd (settings self))
             then Conan.check_min_cppstd (settings self) "17"
             else Ok tt) = Ok tt ->
            validate self = Raise (unsupported_compiler compiler_name m)) as Hreject.
  { intros m Hm Hlt Hgate. unfold validate. rewrite Hgate. simpl.
    fold compiler_name. rewrite Hm, (minimum_version_truthy _ _ Hm).
    unfold below_minimum in Hlt. by rewrite Hlt. }
  split; [|split].
  - intros m Hm Hlt.
    destruct (if Py.truthy_opt (compiler_cppstd (settings self))
              then Conan.check_min_cppstd (settings self) "17"
              else Ok tt) as [[]|e] eqn:Hgate.
    + eexists. by apply Hreject.
    + assert (exists msg, e = ConanInvalidConfiguration msg) as [msg ->].
      { destruct (Py.truthy_opt _); [|done].
        by eapply check_min_cppstd_invalid. }
      exists msg. unfold validate. by rewrite Hgate.
  - intros Hstd m Hm Hlt. apply Hreject; [done..|]. by apply cppstd_gate_passes.
  - intros Hstd Hnone. unfold validate.
    rewrite (cppstd_gate_passes _ Hstd). simpl.
    fold compiler_name. by rewrite Hnone.
Qed.

Lemma validate_minimum_version_witness :
  validate windows_msvc191 = Raise (unsupported_compiler "msvc" "192") /\
  validate linux_gcc7 = Raise (unsupported_compiler "gcc" "8") /\
  validate linux_intel = Ok tt.
Proof.
  split; [|split].
  - apply (proj1 (proj2 (validate_minimum_version windows_msvc191)));
      reflexivity.
  - apply (proj1 (proj2 (validate_minimum_version linux_gcc7))); reflexivity.
  - apply (proj2 (proj2 (validate_minimum_version linux_intel))); reflexivity.
Defined.

(** ** Patch orchestration *)

(** C10: the Apple cross-compilation rule is tolerant. On an Apple-family
    cross build whose top-level CMakeLists lacks the anchor
    PROJECT(MySQL_CONCPP), the rule returns normally and leaves the tree as it
    was; the pipeline goes on exactly as if the rule were not there, and when
    it returns the file still has its original content, without the
    CMAKE_OSX_ARCHITECTURES directive. *)
Theorem patch_apple_anchor_absent (self : ConanFile) (fs : tree) (c : string) :
  Conan.is_apple_os (settings self) = true ->
  Conan.cross_building (settings self) = true ->
  fs !! root_CMakeLists self = Some c ->
  Py.find c "PROJECT(MySQL_CONCPP)" = -1 ->
  patch_apple self fs = Ok fs /\
  _patch_sources self fs =
    (fs1 ← patch_static_lib_naming self fs; patch_protobuf self fs1) /\
  (forall fs', _patch_sources self fs = Ok fs' ->
               fs' !! root_CMakeLists self = Some c).
Proof.
  intros Hos Hcross Hp Hf.
  assert (forall t : tree, t !! root_CMakeLists self = Some c ->
            patch_apple self t = Ok t) as Happle.
  { intros t Ht. unfold patch_apple. rewrite Hos, Hcross. simpl.
    by eapply replace_in_file_absent_tolerant. }
  assert (_patch_sources self fs =
            (fs1 ← patch_static_lib_naming self fs; patch_protobuf self fs1)) as Heq.
  { rewrite _patch_sources_blocks.
    destruct (patch_static_lib_naming self fs) as [fs1|] eqn:E1; [simpl|done].
    rewrite Happle; [done|].
    destruct (patched_paths_distinct self) as (D1 & _).
    rewrite (patch_static_lib_naming_other _ _ _ _ E1); [done|congruence]. }
  split; [by apply Happle|]. split; [done|].
  intros fs' H. rewrite Heq in H.
  destruct (patched_paths_distinct self) as (D1 & _ & _ & _ & D5 & D6 & D7 & _).
  destruct (patch_static_lib_naming self fs) as [fs1|] eqn:E1; [simpl in H|done].
  rewrite (patch_protobuf_other _ _ _ _ H) by done.
  rewrite (patch_static_lib_naming_other _ _ _ _ E1); [done|congruence].
Qed.

Lemma patch_apple_anchor_absent_witness :
  patch_apple macos_cross (drifted_tree macos_cross) = Ok (drifted_tree macos_cross) /\
  is_ok (_patch_sources macos_cross (drifted_tree macos_cross)) = true /\
  (forall fs', _patch_sources macos_cross (drifted_tree macos_cross) = Ok fs' ->
               fs' !! root_CMakeLists macos_cross
               = Some ("project(MySQL_CONCPP)" +:+ newline)).
Proof.
  assert (drifted_tree macos_cross !! root_CMakeLists macos_cross
          = Some ("project(MySQL_CONCPP)" +:+ newline)) as Hp
    by (vm_compute; reflexivity).
  assert (Py.find ("project(MySQL_CONCPP)" +:+ newline) "PROJECT(MySQL_CONCPP)" = -1)
    as Hf by reflexivity.
  pose proof (patch_apple_anchor_absent macos_cross (drifted_tree macos_cross) _
                eq_refl eq_refl Hp Hf) as (H1 & _ & H3).
  split; [exact H1|]. split; [vm_compute; reflexivity | exact H3].
Defined.

(** ** Option normalisation *)

(** C5: after normalisation [fPIC] is absent when [shared] is true, and absent
    on Windows whatever [shared] is; otherwise it is kept, with [True] as its
    declared default. Normalisation never touches [shared]. *)
Theorem effective_options_fPIC (self : ConanFile) :
  shared (effective_options self) = shared (options self) /\
  (shared (options self) = true -> fPIC (effective_options self) = None) /\
  (os (settings self) = "Windows" -> fPIC (effective_options self) = None) /\
  (shared (options self) = false -> os (settings self) <> "Windows" ->
   fPIC (effective_options self) = fPIC (options self)) /\
  (options self = default_options -> os (settings self) <> "Windows" ->
   fPIC (effective_options self) = Some true).
Proof.
  unfold effective_options, configure, config_options.
  destruct (String.eqb_spec (os (settings self)) "Windows") as [Hw|Hw];
    destruct (shared (options self)) eqn:Hs; simpl; rewrite ?Hs; simpl;
    repeat split; try done.
  - intros Hd. rewrite Hd in Hs. discriminate Hs.
  - by intros ->.
Qed.

Lemma effective_options_fPIC_witness :
  fPIC (effective_options macos_cross) = None /\
  fPIC (effective_options windows_msvc191) = None /\
  fPIC (effective_options linux_gcc9) = Some true.
Proof.
  split; [|split].
  - apply (proj1 (proj2 (effective_options_fPIC macos_cross))). reflexivity.
  - apply (proj1 (proj2 (proj2 (effective_options_fPIC windows_msvc191)))).
    reflexivity.
  - apply (proj2 (proj2 (proj2 (proj2 (effective_options_fPIC linux_gcc9))))).
    + reflexivity.
    + discriminate.
Defined.

(** ** CMake cache variables *)

(** C6: the variable set that [generate] produces holds [BUILD_STATIC] equal
    to not-shared and [BUILD_SHARED_LIBS] equal to shared, so exactly one of
    the two flags is true; and [generate] does produce a variable set once the
    declared dependencies are resolved. *)
Theorem generate_build_flags (self : ConanFile) :
  (forall vars, generate self = Ok vars ->
     vars !! "BUILD_STATIC" = Some (CBool (negb (shared (options self)))) /\
     vars !! "BUILD_SHARED_LIBS" = Some (CBool (shared (options self))) /\
     xorb (flag_set vars "BUILD_STATIC") (flag_set vars "BUILD_SHARED_LIBS") = true) /\
  (dependencies_resolved self -> exists vars, generate self = Ok vars).
Proof.
  unfold generate, _package_folder_dep. simpl. split.
  - intros vars H.
    destruct (dependencies self !! "openssl"); [simpl in H|done].
    destruct (dependencies self !! "lz4"); [simpl in H|done].
    destruct (dependencies self !! "zlib"); [simpl in H|done].
    destruct (dependencies self !! "zstd"); [simpl in H|done].
    destruct (dependencies_build self !! "protobuf"); [simpl in H|done].
    injection H as <-. unfold flag_set.
    rewrite !(lookup_insert_ne _ "WITH_PROTOBUF") by done.
    rewrite !(lookup_insert_ne _ "BOOST_DIR") by done.
    rewrite lookup_insert_eq.
    rewrite (lookup_insert_ne _ "BUILD_SHARED_LIBS") by done.
    rewrite lookup_insert_eq.
    by destruct (shared (options self)).
  - intros ([? ->] & [? ->] & [? ->] & [? ->] & [? ->]). simpl. eauto.
Qed.

Lemma generate_build_flags_witness :
  exists vars, generate macos_cross = Ok vars /\
               vars !! "BUILD_STATIC" = Some (CBool false) /\
               vars !! "BUILD_SHARED_LIBS" = Some (CBool true).
Proof.
  destruct (proj2 (generate_build_flags macos_cross)) as [vars H].
  { unfold dependencies_resolved. repeat split; vm_compute; eauto. }
  exists vars. split; [exact H|].
  destruct (proj1 (generate_build_flags macos_cross) vars H) as (H1 & H2 & _).
  split; [exact H1 | exact H2].
Defined.

(** ** Consumption metadata *)

Section PackageInfoFacts.

Lemma elem_In (x : string) (l : list string) : Py.elem x l = true <-> In x l.
Proof.
unfold Py.elem. rewrite existsb_exists. split.
- intros (y & Hy & ->%String.eqb_eq). done.
- intros H. exists x. by rewrite String.eqb_refl.
Qed.

Lemma is_msvc_static_runtime_is_msvc (st : Settings) :
Conan.is_msvc st && Conan.is_msvc_static_runtime st
= Conan.is_msvc_static_runtime st.
Proof. unfold Conan.is_msvc_static_runtime. by destruct (Conan.is_msvc st). Qed.

End PackageInfoFacts.

(** C2 (what the code does): [package_info] assigns [defines] twice in a row
    on a static build, so only the second macro is published; MYSQL_STATIC
    never is. A shared build publishes no macro. *)
Theorem package_info_defines (host : Host) (self : ConanFile) :
  defines (package_info host self)
  = (if shared (options self) then [] else ["STATIC_CONCPP"]) /\
  ~ In "MYSQL_STATIC" (defines (package_info host self)).
Proof.
  assert (defines (package_info host self)
          = (if shared (options self) then [] else ["STATIC_CONCPP"])) as E.
  { unfold package_info.
    destruct (shared (options self)), (String.eqb (build_type (settings self)) "Release"),
      (String.eqb (build_type (settings self)) "Debug"), (Conan.is_msvc (settings self)),
      (Conan.is_msvc_static_runtime (settings self)), (Conan.is_apple_os (settings self)),
      (Py.elem (os (settings self)) ["Linux"; "FreeBSD"]); reflexivity. }
  split; [exact E|]. rewrite E.
  destruct (shared (options self)); simpl; [tauto|].
  intros [H|[]]. discriminate H.
Qed.

(** C3: the published library name is the base name on a shared build, the
    base name followed by -static on a static build, and carries a further
    -mt exactly on a static build for an MSVC toolchain with a static
    runtime. *)
Theorem package_info_libs (host : Host) (self : ConanFile) :
  let st := settings self in
  let op := options self in
  libs (package_info host self)
  = [ "mysqlcppconnx"
      +:+ (if shared op then "" else "-static")
      +:+ (if negb (shared op) && Conan.is_msvc_static_runtime st then "-mt" else "") ] /\
  (shared op = true -> libs (package_info host self) = ["mysqlcppconnx"]) /\
  (shared op = false -> Conan.is_msvc_static_runtime st = false ->
   libs (package_info host self) = ["mysqlcppconnx-static"]) /\
  (shared op = false -> Conan.is_msvc_static_runtime st = true ->
   libs (package_info host self) = ["mysqlcppconnx-static-mt"]) /\
  (os st = "Linux" -> compiler st = "gcc" -> shared op = false ->
   libs (package_info host self) = ["mysqlcppconnx-static"]).
Proof.
  intros st op.
  assert (libs (package_info host self)
          = [ "mysqlcppconnx"
              +:+ (if shared op then "" else "-static")
              +:+ (if negb (shared op) && Conan.is_msvc_static_runtime st
                   then "-mt" else "") ]) as E.
  { unfold package_info. fold st op.
    pose proof (is_msvc_static_runtime_is_msvc st) as Hm.
    destruct (shared op), (String.eqb (build_type st) "Release"),
      (String.eqb (build_type st) "Debug"), (Conan.is_msvc st),
      (Conan.is_msvc_static_runtime st), (Conan.is_apple_os st),
      (Py.elem (os st) ["Linux"; "FreeBSD"]); try discriminate Hm; reflexivity. }
  split; [exact E|]. rewrite E. repeat split.
  - by intros ->.
  - by intros -> ->.
  - by intros -> ->.
  - intros _ Hc ->.
    assert (Conan.is_msvc_static_runtime st = false) as ->; [|done].
    unfold Conan.is_msvc_static_runtime, Conan.is_msvc. by rewrite Hc.
Qed.

Lemma package_info_libs_witness :
  libs (package_info PosixHost macos_cross) = ["mysqlcppconnx"] /\
  libs (package_info PosixHost linux_gcc9) = ["mysqlcppconnx-static"] /\
  libs (package_info WindowsHost windows_msvc_mt_debug) = ["mysqlcppconnx-static-mt"].
Proof.
  split; [|split].
  - apply (proj1 (proj2 (package_info_libs PosixHost macos_cross))). reflexivity.
  - apply (proj2 (proj2 (proj2 (proj2 (package_info_libs PosixHost linux_gcc9)))));
      reflexivity.
  - apply (proj1 (proj2 (proj2 (proj2 (package_info_libs WindowsHost windows_msvc_mt_debug)))));
      reflexivity.
Defined.

(** C7: [system_libs] holds resolv exactly on an Apple-family OS, Linux or
    FreeBSD, and m and pthread exactly on Linux or FreeBSD; on Linux it is
    resolv, m, pthread and on Windows it is empty. *)
Theorem package_info_system_libs (host : Host) (self : ConanFile) :
  let st := settings self in
  let sl := system_libs (package_info host self) in
  (In "resolv" sl <->
   Conan.is_apple_os st = true \/ os st = "Linux" \/ os st = "FreeBSD") /\
  (In "m" sl <-> os st = "Linux" \/ os st = "FreeBSD") /\
  (In "pthread" sl <-> os st = "Linux" \/ os st = "FreeBSD") /\
  (os st = "Linux" -> sl = ["resolv"; "m"; "pthread"]) /\
  (os st = "Windows" -> sl = []).
Proof.
  intros st sl.
  assert (sl = (if Conan.is_apple_os st || Py.elem (os st) ["Linux"; "FreeBSD"]
                then ["resolv"] else [])
               ++ (if Py.elem (os st) ["Linux"; "FreeBSD"]
                   then ["m"; "pthread"] else [])) as E.
  { unfold sl, package_info. fold st.
    destruct (shared (options self)), (String.eqb (build_type st) "Release"),
      (String.eqb (build_type st) "Debug"), (Conan.is_msvc st),
      (Conan.is_msvc_static_runtime st), (Conan.is_apple_os st),
      (Py.elem (os st) ["Linux"; "FreeBSD"]); reflexivity. }
  assert (Py.elem (os st) ["Linux"; "FreeBSD"] = true
          <-> os st = "Linux" \/ os st = "FreeBSD") as Hlf.
  { rewrite elem_In. simpl. intuition congruence. }
  rewrite E. repeat split.
  - destruct (Conan.is_apple_os st); [by left|].
    destruct (Py.elem (os st) ["Linux"; "FreeBSD"]) eqn:El; simpl.
    + intros _. right. by apply Hlf.
    + intros [].
  - intros [Ha|Hl].
    + rewrite Ha. simpl. by left.
    + apply Hlf in Hl. rewrite Hl, orb_true_r. by left.
  - destruct (Py.elem (os st) ["Linux"; "FreeBSD"]) eqn:El.
    + intros _. by apply Hlf.
    + rewrite app_nil_r. destruct (_ || _); simpl; [|tauto].
      intros [H|[]]. discriminate H.
  - intros Hl. apply Hlf in Hl. rewrite Hl. apply in_or_app. right. by left.
  - destruct (Py.elem (os st) ["Linux"; "FreeBSD"]) eqn:El.
    + intros _. by apply Hlf.
    + rewrite app_nil_r. destruct (_ || _); simpl; [|tauto].
      intros [H|[]]. discriminate H.
  - intros Hl. apply Hlf in Hl. rewrite Hl. apply in_or_app. right. right. by left.
  - intros Hl. unfold Conan.is_apple_os. by rewrite Hl.
  - intros Hw. unfold Conan.is_apple_os. by rewrite Hw.
Qed.

Lemma package_info_system_libs_witness :
  system_libs (package_info PosixHost linux_gcc9) = ["resolv"; "m"; "pthread"] /\
  system_libs (package_info WindowsHost windows_msvc191) = [] /\
  In "resolv" (system_libs (package_info PosixHost macos_cross)).
Proof.
  split; [|split].
  - apply (proj1 (proj2 (proj2 (proj2 (package_info_system_libs PosixHost linux_gcc9))))).
    reflexivity.
  - apply (proj2 (proj2 (proj2 (proj2 (package_info_system_libs WindowsHost windows_msvc191))))).
    reflexivity.
  - apply (proj1 (package_info_system_libs PosixHost macos_cross)). left. reflexivity.
Defined.

(** C8, as the claim words it, fails on a Windows host: [os.path.join] is
    [ntpath.join] there, so a Debug build with a compiler other than MSVC
    publishes lib, backslash, debug and not lib/debug. *)
Lemma package_info_libdirs_windows_host :
  build_type (settings windows_clang_debug) = "Debug" /\
  Conan.is_msvc (settings windows_clang_debug) = false /\
  libdirs (package_info WindowsHost windows_clang_debug)
  = ["lib" +:+ backslash +:+ "debug"] /\
  libdirs (package_info WindowsHost windows_clang_debug) <> ["lib/debug"].
Proof. repeat split; try reflexivity. discriminate. Qed.

(** C8 (amended): [libdirs] is a single directory built with the
    [os.path.join] of the host: lib on a Release build, lib joined with debug
    on a Debug build (lib/debug on a POSIX host, lib, backslash, debug on a
    Windows host), and for an MSVC toolchain that directory joined with
    vs14. *)
Theorem package_info_libdirs (host : Host) (self : ConanFile) :
  let st := settings self in
  let base := if String.eqb (build_type st) "Release" then "lib"
              else os_path_join host "lib" ["debug"] in
  libdirs (package_info host self)
  = [if Conan.is_msvc st then os_path_join host base ["vs14"] else base] /\
  libdirs (package_info host self)
  = [ "lib"
      +:+ (if String.eqb (build_type st) "Release" then ""
           else os_sep host +:+ "debug")
      +:+ (if Conan.is_msvc st then os_sep host +:+ "vs14" else "") ] /\
  (build_type st = "Release" -> Conan.is_msvc st = false ->
   libdirs (package_info host self) = ["lib"]) /\
  (build_type st = "Debug" -> Conan.is_msvc st = false ->
   libdirs (package_info host self) = ["lib" +:+ os_sep host +:+ "debug"]) /\
  (build_type st = "Release" -> Conan.is_msvc st = true ->
   libdirs (package_info host self) = ["lib" +:+ os_sep host +:+ "vs14"]) /\
  (build_type st = "Debug" -> Conan.is_msvc st = true ->
   libdirs (package_info host self)
   = ["lib" +:+ os_sep host +:+ "debug" +:+ os_sep host +:+ "vs14"]) /\
  (host = PosixHost ->
   (build_type st = "Debug" -> Conan.is_msvc st = false ->
    libdirs (package_info host self) = ["lib/debug"]) /\
   (build_type st = "Release" -> Conan.is_msvc st = true ->
    libdirs (package_info host self) = ["lib/vs14"]) /\
   (build_type st = "Debug" -> Conan.is_msvc st = true ->
    libdirs (package_info host self) = ["lib/debug/vs14"])).
Proof.
  intros st base.
  assert (libdirs (package_info host self)
          = [if Conan.is_msvc st then os_path_join host base ["vs14"] else base]) as E.
  { unfold base, package_info. fold st.
    destruct (shared (options self)), (String.eqb (build_type st) "Release"),
      (String.eqb (build_type st) "Debug"), (Conan.is_msvc st),
      (Conan.is_msvc_static_runtime st), (Conan.is_apple_os st),
      (Py.elem (os st) ["Linux"; "FreeBSD"]); reflexivity. }
  assert (libdirs (package_info host self)
          = [ "lib"
              +:+ (if String.eqb (build_type st) "Release" then ""
                   else os_sep host +:+ "debug")
              +:+ (if Conan.is_msvc st then os_sep host +:+ "vs14" else "") ]) as E'.
  { rewrite E. unfold base.
    destruct host, (String.eqb (build_type st) "Release"), (Conan.is_msvc st);
      reflexivity. }
  split; [exact E|]. split; [exact E'|]. rewrite E'.
  destruct host; repeat split; try congruence; intros -> ->; reflexivity.
Qed.

Lemma package_info_libdirs_witness :
  libdirs (package_info PosixHost linux_gcc9) = ["lib"] /\
  libdirs (package_info PosixHost windows_clang_debug) = ["lib/debug"] /\
  libdirs (package_info WindowsHost windows_msvc_mt_debug)
  = ["lib" +:+ backslash +:+ "debug" +:+ backslash +:+ "vs14"].
Proof.
  split; [|split].
  - apply (proj1 (proj2 (proj2 (package_info_libdirs PosixHost linux_gcc9))));
      reflexivity.
  - apply (proj1 (proj2 (proj2 (proj2 (proj2 (proj2 (proj2
             (package_info_libdirs PosixHost windows_clang_debug)))))) eq_refl));
      reflexivity.
  - apply (proj1 (proj2 (proj2 (proj2 (proj2 (proj2
             (package_info_libdirs WindowsHost windows_msvc_mt_debug)))))));
      reflexivity.
Defined.

(** C9: the CMake target name is always mysql::concpp, and there is a single
    alias: mysql::concpp, then -static on a shared build, then -debug on a
    Debug build; a static Release build has the alias mysql::concpp. *)
Theorem package_info_targets (host : Host) (self : ConanFile) :
  let st := settings self in
  let op := options self in
  properties (package_info host self) !! "cmake_target_name"
  = Some (PStr "mysql::concpp") /\
  properties (package_info host self) !! "cmake_target_aliases"
  = Some (PList [ "mysql::concpp"
                  +:+ (if shared op then "-static" else "")
                  +:+ (if String.eqb (build_type st) "Debug" then "-debug" else "") ]) /\
  (shared op = false -> build_type st = "Release" ->
   properties (package_info host self) !! "cmake_target_aliases"
   = Some (PList ["mysql::concpp"])).
Proof.
  intros st op.
  assert (properties (package_info host self)
          = <["cmake_target_aliases" :=
                PList [ "mysql::concpp"
                        +:+ (if shared op then "-static" else "")
                        +:+ (if String.eqb (build_type st) "Debug"
                             then "-debug" else "") ]]>
              (<["cmake_target_name" := PStr "mysql::concpp"]> ∅)) as E.
  { unfold package_info. fold st op.
    destruct (shared op), (String.eqb (build_type st) "Release"),
      (String.eqb (build_type st) "Debug"), (Conan.is_msvc st),
      (Conan.is_msvc_static_runtime st), (Conan.is_apple_os st),
      (Py.elem (os st) ["Linux"; "FreeBSD"]); reflexivity. }
  rewrite E. split; [|split].
  - rewrite lookup_insert_ne by done. apply lookup_insert_eq.
  - apply lookup_insert_eq.
  - intros -> ->. rewrite lookup_insert_eq. reflexivity.
Qed.

Lemma package_info_targets_witness :
  properties (package_info PosixHost linux_gcc9) !! "cmake_target_aliases"
  = Some (PList ["mysql::concpp"]).
Proof.
  apply (proj2 (proj2 (package_info_targets PosixHost linux_gcc9))); reflexivity.
Defined.

(** ** Dependency folders: further facts *)

Section SlashFacts.

Lemma find_from_shift (s sub : string) (i j : Z) :
  0 <= i -> 0 <= j -> Py.find_from i s sub = -1 -> Py.find_from j s sub = -1.
Proof.
  revert i j. induction s as [|c s IH]; intros i j Hi Hj;
    rewrite (find_from_unfold i), (find_from_unfold j);
    destruct (String.prefix sub _); try lia; try done.
  apply IH; lia.
Qed.

Lemma find_char_cons (c x : ascii) (s : string) :
  Py.find (String x s) (String c EmptyString) = -1
  <-> c <> x /\ Py.find s (String c EmptyString) = -1.
Proof.
  unfold Py.find. rewrite find_from_unfold. simpl.
  destruct (ascii_dec c x) as [->|Hne].
  - assert (String.prefix EmptyString s = true) as -> by (by destruct s).
    split; [lia | by intros [? _]].
  - split.
    + intros H. split; [done|]. revert H. apply find_from_shift; lia.
    + intros [_ H]. revert H. apply find_from_shift; lia.
Qed.

Lemma replace_char_cons (c x : ascii) (new s : string) :
  Py.replace (String x s) (String c EmptyString) new =
    if ascii_dec c x then new +:+ Py.replace s (String c EmptyString) new
    else String x (Py.replace s (String c EmptyString) new).
Proof.
  unfold Py.replace. simpl. destruct (ascii_dec c x); [|done]. by destruct s.
Qed.

Lemma replace_backslash_forward_slashed (s : string) :
  forward_slashed (Py.replace s backslash "/").
Proof.
  unfold forward_slashed, backslash. induction s as [|x s IH]; [done|].
  rewrite replace_char_cons. destruct (ascii_dec _ x).
  - change ("/" +:+ ?t) with (String "/"%char t).
    apply find_char_cons. split; [discriminate | exact IH].
  - apply find_char_cons. by split.
Qed.

Lemma replace_backslash_id (s : string) :
  forward_slashed s -> Py.replace s backslash "/" = s.
Proof.
  unfold forward_slashed, backslash. induction s as [|x s IH]; [done|].
  intros [Hne H]%find_char_cons. rewrite replace_char_cons.
  destruct (ascii_dec _ x); [done|]. by rewrite IH.
Qed.

Lemma replace_backslash_length (s : string) :
  String.length (Py.replace s backslash "/") = String.length s.
Proof.
  unfold backslash. induction s as [|x s IH]; [done|].
  rewrite replace_char_cons.
  destruct (ascii_dec _ x); [change ("/" +:+ ?t) with (String "/"%char t)|];
    cbn [String.length]; by rewrite IH.
Qed.

End SlashFacts.

(** X1: [_package_folder_dep] reads the build-scope store when the scope is
    build and the host-scope store otherwise. A missing dependency raises
    [KeyError] with its name. Otherwise the folder comes back with the same
    length and without any backslash, and unchanged when it had none. *)
Theorem package_folder_dep_normalised (self : ConanFile) (dep scope : string) :
  let store := if String.eqb scope "build"
               then dependencies_build self else dependencies self in
  (store !! dep = None ->
   _package_folder_dep self dep scope = Raise (KeyError dep)) /\
  (forall d, store !! dep = Some d ->
     exists p, _package_folder_dep self dep scope = Ok p /\
               forward_slashed p /\
               String.length p = String.length (package_folder d) /\
               (forward_slashed (package_folder d) -> p = package_folder d)).
Proof.
  unfold _package_folder_dep. destruct (String.eqb scope "build"); simpl; split.
  1,3: by intros ->.
  all: intros d ->; eexists; split; [done|];
    split; [apply replace_backslash_forward_slashed|];
    split; [apply replace_backslash_length | apply replace_backslash_id].
Qed.

Lemma package_folder_dep_normalised_witness :
  _package_folder_dep macos_cross "boost" "host" = Raise (KeyError "boost") /\
  exists p, _package_folder_dep macos_cross "protobuf" "build" = Ok p /\
            forward_slashed p.
Proof.
  split.
  - apply (proj1 (package_folder_dep_normalised macos_cross "boost" "host")).
    vm_compute. reflexivity.
  - destruct (proj2 (package_folder_dep_normalised macos_cross "protobuf" "build")
                {| package_folder := "C:" +:+ backslash +:+ "p" +:+ backslash +:+ "protoc";
                   dep_build_type := "Debug" |})
      as (p & Hp & Hs & _).
    + vm_compute. reflexivity.
    + exists p. split; [exact Hp | exact Hs].
Defined.

(** ** The variable set: further facts *)

Section GenerateFacts.

Variable self : ConanFile.

Lemma generate_Ok_inv (vars : gmap string CacheValue) :
  generate self = Ok vars ->
  exists ssl lz4 zlib zstd pb,
    _package_folder_dep self "openssl" "host" = Ok ssl /\
    _package_folder_dep self "lz4" "host" = Ok lz4 /\
    _package_folder_dep self "zlib" "host" = Ok zlib /\
    _package_folder_dep self "zstd" "host" = Ok zstd /\
    _package_folder_dep self "protobuf" "build" = Ok pb /\
    vars = <["WITH_PROTOBUF" := CStr pb]>
             (<["BOOST_DIR" := CStr "FALSE"]>
             (<["BUILD_SHARED_LIBS" := CBool (shared (options self))]>
             (<["BUILD_STATIC" := CBool (negb (shared (options self)))]>
             (<["WITH_ZSTD" := CStr zstd]>
             (<["WITH_ZLIB" := CStr zlib]>
             (<["WITH_LZ4" := CStr lz4]>
             (<["WITH_SSL" := CStr ssl]> ∅))))))).
Proof.
  unfold generate. intros H.
  destruct (_package_folder_dep self "openssl" "host") as [ssl|]; [simpl in H|done].
  destruct (_package_folder_dep self "lz4" "host") as [lz4|]; [simpl in H|done].
  destruct (_package_folder_dep self "zlib" "host") as [zlib|]; [simpl in H|done].
  destruct (_package_folder_dep self "zstd" "host") as [zstd|]; [simpl in H|done].
  destruct (_package_folder_dep self "protobuf" "build") as [pb|]; [simpl in H|done].
  injection H as <-. by exists ssl, lz4, zlib, zstd, pb.
Qed.

Lemma package_folder_dep_Ok_forward (dep scope p : string) :
  _package_folder_dep self dep scope = Ok p -> forward_slashed p.
Proof.
  unfold _package_folder_dep. intros H.
  destruct (String.eqb scope "build");
    [destruct (dependencies_build self !! dep) | destruct (dependencies self !! dep)];
    try done; injection H as <-; apply replace_backslash_forward_slashed.
Qed.

Lemma package_folder_dep_host (dep p : string) :
  _package_folder_dep self dep "host" = Ok p ->
  exists d, dependencies self !! dep = Some d /\
            p = Py.replace (package_folder d) backslash "/".
Proof.
  unfold _package_folder_dep. simpl. intros H.
  destruct (dependencies self !! dep) as [d|]; [|done].
  injection H as <-. by exists d.
Qed.

Lemma package_folder_dep_build (dep p : string) :
  _package_folder_dep self dep "build" = Ok p ->
  exists d, dependencies_build self !! dep = Some d /\
            p = Py.replace (package_folder d) backslash "/".
Proof.
  unfold _package_folder_dep. simpl. intros H.
  destruct (dependencies_build self !! dep) as [d|]; [|done].
  injection H as <-. by exists d.
Qed.

Lemma generate_resolved :
  dependencies_resolved self -> exists vars, generate self = Ok vars.
Proof.
  unfold generate, _package_folder_dep.
  intros ([? ->] & [? ->] & [? ->] & [? ->] & [? ->]). simpl. eauto.
Qed.

End GenerateFacts.

(** X2: a variable set that [generate] returns has exactly the eight keys
    WITH_SSL, WITH_LZ4, WITH_ZLIB, WITH_ZSTD, BUILD_STATIC,
    BUILD_SHARED_LIBS, BOOST_DIR and WITH_PROTOBUF; BOOST_DIR is always the
    text FALSE; the four host libraries come from the host-scope store and
    WITH_PROTOBUF from the build-scope store, each as its package folder with
    backslashes turned into slashes. *)
Theorem generate_variable_set (self : ConanFile) (vars : gmap string CacheValue) :
  generate self = Ok vars ->
  dom vars = {[ "WITH_SSL"; "WITH_LZ4"; "WITH_ZLIB"; "WITH_ZSTD"; "BUILD_STATIC";
                "BUILD_SHARED_LIBS"; "BOOST_DIR"; "WITH_PROTOBUF" ]} /\
  vars !! "BOOST_DIR" = Some (CStr "FALSE") /\
  exists ssl lz4 zlib zstd pb,
    dependencies self !! "openssl" = Some ssl /\
    dependencies self !! "lz4" = Some lz4 /\
    dependencies self !! "zlib" = Some zlib /\
    dependencies self !! "zstd" = Some zstd /\
    dependencies_build self !! "protobuf" = Some pb /\
    vars !! "WITH_SSL" = Some (CStr (Py.replace (package_folder ssl) backslash "/")) /\
    vars !! "WITH_LZ4" = Some (CStr (Py.replace (package_folder lz4) backslash "/")) /\
    vars !! "WITH_ZLIB" = Some (CStr (Py.replace (package_folder zlib) backslash "/")) /\
    vars !! "WITH_ZSTD" = Some (CStr (Py.replace (package_folder zstd) backslash "/")) /\
    vars !! "WITH_PROTOBUF" = Some (CStr (Py.replace (package_folder pb) backslash "/")).
Proof.
  intros (ssl & lz4 & zlib & zstd & pb & H1 & H2 & H3 & H4 & H5 & ->)%generate_Ok_inv.
  apply package_folder_dep_host in H1 as (d1 & E1 & ->).
  apply package_folder_dep_host in H2 as (d2 & E2 & ->).
  apply package_folder_dep_host in H3 as (d3 & E3 & ->).
  apply package_folder_dep_host in H4 as (d4 & E4 & ->).
  apply package_folder_dep_build in H5 as (d5 & E5 & ->).
  split; [|split].
  - rewrite !dom_insert_L, dom_empty_L. set_solver.
  - by rewrite lookup_insert_ne, lookup_insert_eq.
  - exists d1, d2, d3, d4, d5. repeat (split; [done|]).
    repeat split; by simplify_map_eq.
Qed.

Lemma generate_variable_set_witness :
  is_ok (generate macos_cross) = true /\
  match generate macos_cross with
  | Ok vars => vars !! "BOOST_DIR" = Some (CStr "FALSE")
  | Raise _ => True
  end.
Proof.
  split; [vm_compute; reflexivity|].
  destruct (generate macos_cross) as [vars|] eqn:H; [|exact I].
  exact (proj1 (proj2 (generate_variable_set macos_cross vars H))).
Defined.

(** X3: every text value of a variable set that [generate] returns is free of
    backslashes, whatever the host's path separator. *)
Theorem generate_forward_slashes (self : ConanFile) (vars : gmap string CacheValue)
    (key value : string) :
  generate self = Ok vars -> vars !! key = Some (CStr value) ->
  forward_slashed value.
Proof.
  intros (ssl & lz4 & zlib & zstd & pb & H1 & H2 & H3 & H4 & H5 & ->)%generate_Ok_inv.
  apply package_folder_dep_Ok_forward in H1, H2, H3, H4, H5.
  rewrite !lookup_insert_Some, lookup_empty.
  intros H. repeat (destruct H as [[_ H]|[_ H]]; [by simplify_eq|]). done.
Qed.

Lemma generate_forward_slashes_witness :
  generate macos_cross = Ok macos_cross_variables /\
  forward_slashed "C:/p/protoc".
Proof.
  assert (generate macos_cross = Ok macos_cross_variables) as H
    by (vm_compute; reflexivity).
  split; [exact H|].
  apply (generate_forward_slashes macos_cross macos_cross_variables
           "WITH_PROTOBUF" "C:/p/protoc" H).
  vm_compute. reflexivity.
Defined.

(** X4: [generate] returns a variable set exactly when the four host
    libraries and the build-scope protobuf are in the store; otherwise it
    raises [KeyError] with the name of a dependency that is missing from the
    scope it is read from, and nothing else. *)
Theorem generate_missing_dependency (self : ConanFile) :
  (is_ok (generate self) = true <-> dependencies_resolved self) /\
  (forall e, generate self = Raise e ->
     exists dep, e = KeyError dep /\
       ((In dep ["openssl"; "lz4"; "zlib"; "zstd"] /\ dependencies self !! dep = None) \/
        (dep = "protobuf" /\ dependencies_build self !! dep = None))).
Proof.
  unfold dependencies_resolved, generate, _package_folder_dep. simpl.
  destruct (dependencies self !! "openssl") eqn:E1; simpl;
    [|split; [split; [done|by intros ([? [=]] & _)]
             |intros e [= <-]; exists "openssl"; split; [done|left; simpl; auto]]].
  destruct (dependencies self !! "lz4") eqn:E2; simpl;
    [|split; [split; [done|by intros (_ & [? [=]] & _)]
             |intros e [= <-]; exists "lz4"; split; [done|left; simpl; auto]]].
  destruct (dependencies self !! "zlib") eqn:E3; simpl;
    [|split; [split; [done|by intros (_ & _ & [? [=]] & _)]
             |intros e [= <-]; exists "zlib"; split; [done|left; simpl; auto]]].
  destruct (dependencies self !! "zstd") eqn:E4; simpl;
    [|split; [split; [done|by intros (_ & _ & _ & [? [=]] & _)]
             |intros e [= <-]; exists "zstd"; split; [done|left; simpl; auto 6]]].
  destruct (dependencies_build self !! "protobuf") eqn:E5; simpl;
    [|split; [split; [done|by intros (_ & _ & _ & _ & [? [=]])]
             |intros e [= <-]; exists "protobuf"; split; [done|by right]]].
  split; [|done]. split; [|done]. intros _. repeat split; eauto.
Qed.

Lemma generate_missing_dependency_witness :
  dependencies_resolved macos_cross /\
  exists dep, KeyError "zstd" = KeyError dep /\
    ((In dep ["openssl"; "lz4"; "zlib"; "zstd"] /\ dependencies without_zstd !! dep = None) \/
     (dep = "protobuf" /\ dependencies_build without_zstd !! dep = None)).
Proof.
  split.
  - apply (proj1 (proj1 (generate_missing_dependency macos_cross))).
    vm_compute. reflexivity.
  - apply (proj2 (generate_missing_dependency without_zstd)).
    vm_compute. reflexivity.
Defined.

(** X5: the requirements the recipe declares cover every dependency it reads.
    When the store holds a package for each reference of [requirements] in
    the host scope and of [build_requirements] in the build scope, [generate]
    returns a variable set and the protobuf lookup of the patch step does not
    raise. *)
Theorem declared_requirements_suffice (self : ConanFile) :
  requirements_resolved self ->
  (exists vars, generate self = Ok vars) /\
  (exists name, protobuf_name self = Ok name).
Proof.
  intros [Hh Hb].
  assert (dependencies_resolved self) as Hres.
  { unfold dependencies_resolved.
    pose proof (Hh "openssl/[>=1.1 <4]") as H1.
    pose proof (Hh "lz4/1.10.0") as H2.
    pose proof (Hh "zlib/[>=1.2.11 <2]") as H3.
    pose proof (Hh "zstd/[>=1.5 <1.6]") as H4.
    pose proof (Hb "protobuf/<host_version>") as H5.
    repeat split; [apply H1|apply H2|apply H3|apply H4|apply H5]; simpl; auto 6. }
  split.
  - by apply generate_resolved.
  - destruct Hres as (_ & _ & _ & _ & [d Hd]).
    unfold protobuf_name. rewrite Hd. eauto.
Qed.

Lemma declared_requirements_suffice_witness :
  (exists vars, generate macos_cross = Ok vars) /\
  (exists name, protobuf_name macos_cross = Ok name).
Proof.
  apply declared_requirements_suffice. split.
  - intros ref [<-|[<-|[<-|[<-|[<-|[]]]]]]; vm_compute; eauto.
  - intros ref [<-|[]]. vm_compute. eauto.
Defined.

(** ** Toolchain validation: further facts *)

Section ValidateFacts.

Lemma cppstd_gate_raises (self : ConanFile) :
  cppstd_accepted self = false ->
  exists msg,
    (if Py.truthy_opt (compiler_cppstd (settings self))
     then Conan.check_min_cppstd (settings self) "17"
     else Ok tt) = Raise (ConanInvalidConfiguration msg).
Proof.
  unfold cppstd_accepted. intros H.
  destruct (Py.truthy_opt _); [simpl in H|done].
  destruct (Conan.check_min_cppstd _ _) as [[]|e] eqn:E; [done|].
  destruct (check_min_cppstd_invalid _ _ _ E) as [msg ->]. by exists msg.
Qed.

Lemma item_eqb_refl (x : Conan.VersionItem) : Conan.item_eqb x x = true.
Proof. destruct x; simpl; [apply N.eqb_refl | apply String.eqb_refl]. Qed.

Lemma items_ltb_irrefl (a : list Conan.VersionItem) : Conan.items_ltb a a = false.
Proof. induction a as [|x a IH]; [done|]. simpl. by rewrite item_eqb_refl. Qed.

End ValidateFacts.

(** X6: [validate] accepts a configuration exactly when the declared language
    standard, if there is one, meets C++17 and the compiler version is not
    below the minimum that the table gives for its family, if it gives one. *)
Theorem validate_accepts_iff (self : ConanFile) :
  validate self = Ok tt <->
  cppstd_accepted self = true /\
  (forall m, _minimum_compilers_version !! compiler (settings self) = Some m ->
             below_minimum self m = false).
Proof.
  unfold validate, below_minimum.
  destruct (cppstd_accepted self) eqn:Hstd.
  - rewrite (cppstd_gate_passes _ Hstd). simpl.
    destruct (_minimum_compilers_version !! compiler (settings self)) as [m|] eqn:Hm.
    + rewrite (minimum_version_truthy _ _ Hm). simpl. split.
      * intros H. split; [done|]. intros m' [= <-].
        by destruct (Conan.Version_lt _ _).
      * intros [_ H]. by rewrite (H m eq_refl).
    + split; [|done]. intros _. split; [done|]. by intros m.
  - destruct (cppstd_gate_raises _ Hstd) as [msg ->]. simpl. split; [done|].
    by intros [? _].
Qed.

Lemma validate_accepts_iff_witness :
  validate linux_gcc9 = Ok tt /\
  cppstd_accepted linux_intel = true.
Proof.
  split.
  - apply (proj2 (validate_accepts_iff linux_gcc9)). split; [reflexivity|].
    intros m. vm_compute. intros [= <-]. reflexivity.
  - apply (proj1 (validate_accepts_iff linux_intel)). reflexivity.
Defined.

(** X7: whatever [validate] rejects, it rejects with
    [ConanInvalidConfiguration]; it raises no other kind of exception. *)
Theorem validate_raises_invalid_configuration (self : ConanFile) (e : exception) :
  validate self = Raise e -> exists msg, e = ConanInvalidConfiguration msg.
Proof.
  unfold validate.
  destruct (cppstd_accepted self) eqn:Hstd.
  - rewrite (cppstd_gate_passes _ Hstd). simpl.
    destruct (_minimum_compilers_version !! _); [|done].
    destruct (_ && _); [|done]. intros [= <-]. eauto.
  - destruct (cppstd_gate_raises _ Hstd) as [msg ->]. simpl.
    intros [= <-]. eauto.
Qed.

Lemma validate_raises_invalid_configuration_witness :
  exists msg, unsupported_compiler "msvc" "192" = ConanInvalidConfiguration msg.
Proof.
  apply (validate_raises_invalid_configuration windows_msvc191). reflexivity.
Defined.

(** X8: the version check is strict: a compiler whose version is written
    exactly as the table minimum of its family is accepted, when the language
    standard gate lets it through. *)
Theorem validate_at_minimum (self : ConanFile) (m : string) :
  cppstd_accepted self = true ->
  _minimum_compilers_version !! compiler (settings self) = Some m ->
  compiler_version (settings self) = m ->
  validate self = Ok tt.
Proof.
  intros Hstd Hm Hv. unfold validate.
  rewrite (cppstd_gate_passes _ Hstd). simpl. rewrite Hm, Hv.
  unfold Conan.Version_lt. rewrite items_ltb_irrefl. by rewrite andb_false_r.
Qed.

Lemma validate_at_minimum_witness :
  validate (mk_self (mk_settings "Linux" "gcc" "8" None "Release" "" false)
                    static_options) = Ok tt.
Proof.
  apply (validate_at_minimum _ "8"); reflexivity.
Defined.

(** ** Option normalisation: further facts *)

(** X9: the two option hooks commute and are idempotent, and they change
    nothing of the recipe but its options: settings, dependency stores and
    source folder stay as they were, and so does [shared]. *)
Theorem option_hooks_commute (self : ConanFile) :
  configure (config_options self) = config_options (configure self) /\
  configure (configure self) = configure self /\
  config_options (config_options self) = config_options self /\
  configure (config_options (configure (config_options self)))
  = configure (config_options self) /\
  settings (configure (config_options self)) = settings self /\
  dependencies (configure (config_options self)) = dependencies self /\
  dependencies_build (configure (config_options self)) = dependencies_build self /\
  source_folder (configure (config_options self)) = source_folder self.
Proof.
  unfold configure, config_options.
  destruct (String.eqb (os (settings self)) "Windows") eqn:Hw,
    (shared (options self)) eqn:Hs;
    simpl; rewrite ?Hw, ?Hs; simpl; rewrite ?Hw, ?Hs; simpl;
    rewrite ?Hw, ?Hs; repeat split; reflexivity.
Qed.

(** ** Patch orchestration: further facts *)

Section PatchMoreFacts.

Lemma replace_in_file_Ok_inv (fs fs' : tree) (p search repl : string) (b : bool) :
  Conan.replace_in_file fs p search repl b = Ok fs' ->
  exists c, fs !! p = Some c /\
    ((Py.find c search = -1 /\ b = false /\ fs' = fs) \/
     (Py.find c search <> -1 /\ fs' = <[p := Py.replace c search repl]> fs)).
Proof.
  unfold Conan.replace_in_file. intros H.
  destruct (fs !! p) as [c|]; [|done]. exists c. split; [done|].
  destruct (Z.eqb_spec (Py.find c search) (-1)) as [E|E].
  - destruct b; [done|]. injection H as <-. by left.
  - injection H as <-. by right.
Qed.

Lemma replace_in_file_dom (fs fs' : tree) (p search repl : string) (b : bool) :
  Conan.replace_in_file fs p search repl b = Ok fs' -> dom fs' = dom fs.
Proof.
  intros (c & Hc & [(_ & _ & ->)|(_ & ->)])%replace_in_file_Ok_inv; [done|].
  apply dom_insert_lookup_L. by rewrite Hc.
Qed.

Lemma replace_in_file_lookup (fs fs' : tree) (p search repl : string) (b : bool) :
  Conan.replace_in_file fs p search repl b = Ok fs' ->
  forall q, fs' !! q =
    if decide (q = p) then (fun c => replaced c search repl) <$> fs !! p
    else fs !! q.
Proof.
  intros (c & Hc & [(Hf & _ & ->)|(Hf & ->)])%replace_in_file_Ok_inv q;
    destruct (decide (q = p)) as [->|Hq]; rewrite ?Hc; simpl; unfold replaced.
  - by rewrite Hf.
  - done.
  - rewrite lookup_insert_eq. by destruct (Z.eqb_spec (Py.find c search) (-1)).
  - by rewrite lookup_insert_ne.
Qed.

Lemma replace_in_file_strict_lookup (fs fs' : tree) (p search repl : string) :
  Conan.replace_in_file fs p search repl true = Ok fs' ->
  exists c, fs !! p = Some c /\ Py.find c search <> -1 /\
    forall q, fs' !! q =
      if decide (q = p) then Some (Py.replace c search repl) else fs !! q.
Proof.
  intros (c & Hc & [(_ & [=] & _)|(Hf & ->)])%replace_in_file_Ok_inv.
  exists c. repeat split; [done..|]. intros q.
  destruct (decide (q = p)) as [->|Hq];
    [apply lookup_insert_eq | by apply lookup_insert_ne].
Qed.

Variable self : ConanFile.

Lemma patch_static_lib_naming_lookup (fs fs' : tree) :
  patch_static_lib_naming self fs = Ok fs' ->
  dom fs' = dom fs /\
  forall q, fs' !! q =
    if decide (q = install_layout_cmake self)
    then (fun c => if static_naming_gate self
                   then replaced c lib_name_static_old lib_name_static_new
                   else c) <$> fs !! install_layout_cmake self
    else fs !! q.
Proof.
  unfold patch_static_lib_naming, static_naming_gate.
  destruct (negb (shared (options self)) && Conan.is_msvc (settings self)).
  - intros H. split; [by eapply replace_in_file_dom|].
    by apply (replace_in_file_lookup _ _ _ _ _ _ H).
  - intros [= <-]. split; [done|]. intros q. case_decide; [subst|done].
    by destruct (fs !! _).
Qed.

Lemma patch_apple_lookup (fs fs' : tree) :
  patch_apple self fs = Ok fs' ->
  dom fs' = dom fs /\
  forall q, fs' !! q =
    if decide (q = root_CMakeLists self)
    then (fun c => if apple_gate self
                   then replaced c "PROJECT(MySQL_CONCPP)"
                          ("PROJECT(MySQL_CONCPP)" +:+ newline
                           +:+ osx_architectures_patch self)
                   else c) <$> fs !! root_CMakeLists self
    else fs !! q.
Proof.
  unfold patch_apple, apple_gate.
  destruct (Conan.is_apple_os (settings self) && Conan.cross_building (settings self)).
  - intros H. split; [by eapply replace_in_file_dom|].
    by apply (replace_in_file_lookup _ _ _ _ _ _ H).
  - intros [= <-]. split; [done|]. intros q. case_decide; [subst|done].
    by destruct (fs !! _).
Qed.

Lemma patch_protobuf_lookup (fs fs' : tree) :
  patch_protobuf self fs = Ok fs' ->
  exists pb c1 c2 c3,
    protobuf_name self = Ok pb /\
    fs !! DepFindProtobuf_cmake self = Some c1 /\
    fs !! mysqlx_CMakeLists self = Some c2 /\
    fs !! core_CMakeLists self = Some c3 /\
    Py.find c1 "LIBRARY protobuf-lite pb_libprotobuf-lite" <> -1 /\
    Py.find (Py.replace c1 "LIBRARY protobuf-lite pb_libprotobuf-lite" "")
            "LIBRARY protobuf" <> -1 /\
    Py.find c2 "ext::protobuf-lite" <> -1 /\
    Py.find c3 "ext::protobuf-lite" <> -1 /\
    dom fs' = dom fs /\
    forall q, fs' !! q =
      if decide (q = DepFindProtobuf_cmake self) then
        Some (Py.replace (Py.replace c1 "LIBRARY protobuf-lite pb_libprotobuf-lite" "")
                         "LIBRARY protobuf" ("LIBRARY " +:+ pb))
      else if decide (q = mysqlx_CMakeLists self) then
        Some (Py.replace c2 "ext::protobuf-lite" ("ext::" +:+ pb))
      else if decide (q = core_CMakeLists self) then
        Some (Py.replace c3 "ext::protobuf-lite" ("ext::" +:+ pb))
      else fs !! q.
Proof.
  destruct (patched_paths_distinct self) as (_ & _ & _ & _ & _ & _ & _ & D1 & D2 & D3).
  unfold patch_protobuf. intros H.
  destruct (protobuf_name self) as [pb|]; [simpl in H|done].
  destruct (Conan.replace_in_file fs _ _ _ _) as [fs1|] eqn:E1; [simpl in H|done].
  destruct (Conan.replace_in_file fs1 _ _ _ _) as [fs2|] eqn:E2; [simpl in H|done].
  destruct (Conan.replace_in_file fs2 _ _ _ _) as [fs3|] eqn:E3; [simpl in H|done].
  pose proof (replace_in_file_dom _ _ _ _ _ _ E1) as Hd1.
  pose proof (replace_in_file_dom _ _ _ _ _ _ E2) as Hd2.
  pose proof (replace_in_file_dom _ _ _ _ _ _ E3) as Hd3.
  pose proof (replace_in_file_dom _ _ _ _ _ _ H) as Hd4.
  apply replace_in_file_strict_lookup in E1 as (c1 & Hc1 & Hf1 & L1).
  apply replace_in_file_strict_lookup in E2 as (c1' & Hc1' & Hf2 & L2).
  apply replace_in_file_strict_lookup in E3 as (c2 & Hc2 & Hf3 & L3).
  apply replace_in_file_strict_lookup in H as (c3 & Hc3 & Hf4 & L4).
  rewrite L1, decide_True in Hc1' by done. injection Hc1' as <-.
  rewrite L2, decide_False, L1, decide_False in Hc2 by done.
  rewrite L3, decide_False, L2, decide_False, L1, decide_False in Hc3 by done.
  exists pb, c1, c2, c3. repeat (split; [done|]).
  split; [congruence|]. intros q. rewrite L4.
  destruct (decide (q = core_CMakeLists self)) as [->|N3].
  { by rewrite !decide_False by done. }
  rewrite L3. destruct (decide (q = mysqlx_CMakeLists self)) as [->|N2].
  { by rewrite decide_False by done. }
  rewrite L2. destruct (decide (q = DepFindProtobuf_cmake self)) as [->|N1]; [done|].
  by rewrite L1, decide_False.
Qed.

End PatchMoreFacts.

Section PatchPipelineFacts.

Variable self : ConanFile.

(** What a successful run of the pipeline leaves in each file. *)
Lemma patch_sources_Ok_inv (fs fs' : tree) :
  _patch_sources self fs = Ok fs' ->
  exists pb c1 c2 c3,
    protobuf_name self = Ok pb /\
    fs !! DepFindProtobuf_cmake self = Some c1 /\
    fs !! mysqlx_CMakeLists self = Some c2 /\
    fs !! core_CMakeLists self = Some c3 /\
    Py.find c1 "LIBRARY protobuf-lite pb_libprotobuf-lite" <> -1 /\
    Py.find c2 "ext::protobuf-lite" <> -1 /\
    Py.find c3 "ext::protobuf-lite" <> -1 /\
    dom fs' = dom fs /\
    forall q, fs' !! q =
      if decide (q = DepFindProtobuf_cmake self) then
        Some (Py.replace (Py.replace c1 "LIBRARY protobuf-lite pb_libprotobuf-lite" "")
                         "LIBRARY protobuf" ("LIBRARY " +:+ pb))
      else if decide (q = mysqlx_CMakeLists self) then
        Some (Py.replace c2 "ext::protobuf-lite" ("ext::" +:+ pb))
      else if decide (q = core_CMakeLists self) then
        Some (Py.replace c3 "ext::protobuf-lite" ("ext::" +:+ pb))
      else if decide (q = root_CMakeLists self) then
        (fun c => if apple_gate self
                  then replaced c "PROJECT(MySQL_CONCPP)"
                         ("PROJECT(MySQL_CONCPP)" +:+ newline
                          +:+ osx_architectures_patch self)
                  else c) <$> fs !! root_CMakeLists self
      else if decide (q = install_layout_cmake self) then
        (fun c => if static_naming_gate self
                  then replaced c lib_name_static_old lib_name_static_new
                  else c) <$> fs !! install_layout_cmake self
      else fs !! q.
Proof.
  destruct (patched_paths_distinct self)
    as (D1 & D2 & D3 & D4 & D5 & D6 & D7 & _).
  rewrite _patch_sources_blocks. intros H.
  destruct (patch_static_lib_naming self fs) as [fs1|] eqn:E1; [simpl in H|done].
  destruct (patch_apple self fs1) as [fs2|] eqn:E2; [simpl in H|done].
  apply patch_static_lib_naming_lookup in E1 as [Hd1 L1].
  apply patch_apple_lookup in E2 as [Hd2 L2].
  apply patch_protobuf_lookup in H
    as (pb & c1 & c2 & c3 & Hpb & Hc1 & Hc2 & Hc3 & Hf1 & _ & Hf2 & Hf3 & Hd3 & L3).
  rewrite L2, decide_False, L1, decide_False in Hc1 by congruence.
  rewrite L2, decide_False, L1, decide_False in Hc2 by congruence.
  rewrite L2, decide_False, L1, decide_False in Hc3 by congruence.
  exists pb, c1, c2, c3. repeat (split; [done|]).
  split; [congruence|]. intros q. rewrite L3.
  repeat (case_decide; [done|]). rewrite L2.
  case_decide.
  - by rewrite L1, decide_False by congruence.
  - by rewrite L1.
Qed.

End PatchPipelineFacts.

(** X10: a run of [_patch_sources] that returns has created and deleted no
    file, and has left every file other than its five targets with the
    content it had. *)
Theorem patch_sources_frame (self : ConanFile) (fs fs' : tree) :
  _patch_sources self fs = Ok fs' ->
  dom fs' = dom fs /\
  (forall q, ~ In q (patched_files self) -> fs' !! q = fs !! q).
Proof.
  intros (pb & c1 & c2 & c3 & _ & _ & _ & _ & _ & _ & _ & Hd & L)%patch_sources_Ok_inv.
  split; [done|]. intros q Hq. rewrite L. unfold patched_files in Hq. simpl in Hq.
  repeat (case_decide; [exfalso; apply Hq; auto 6|]). done.
Qed.

Lemma patch_sources_frame_witness :
  is_ok (_patch_sources macos_cross
           (<["/src/README.txt" := "docs"]> (upstream_tree macos_cross))) = true /\
  match _patch_sources macos_cross
          (<["/src/README.txt" := "docs"]> (upstream_tree macos_cross)) with
  | Ok fs' => fs' !! "/src/README.txt" = Some "docs"
  | Raise _ => True
  end.
Proof.
  split; [vm_compute; reflexivity|].
  destruct (_patch_sources macos_cross _) as [fs'|] eqn:H; [|exact I].
  rewrite (proj2 (patch_sources_frame macos_cross _ fs' H) "/src/README.txt").
  - vm_compute. reflexivity.
  - vm_compute. intuition discriminate.
Defined.

(** X11: the two tolerant rules stay behind their gates. On a shared build, or
    with a compiler that is not MSVC, install_layout.cmake keeps its content;
    off an Apple OS, or when not cross building, the top-level CMakeLists.txt
    keeps its content, even when the find-text is there. *)
Theorem patch_sources_gates (self : ConanFile) (fs fs' : tree) :
  _patch_sources self fs = Ok fs' ->
  (static_naming_gate self = false ->
   fs' !! install_layout_cmake self = fs !! install_layout_cmake self) /\
  (apple_gate self = false ->
   fs' !! root_CMakeLists self = fs !! root_CMakeLists self).
Proof.
  destruct (patched_paths_distinct self)
    as (D1 & D2 & D3 & D4 & D5 & D6 & D7 & _).
  intros (pb & c1 & c2 & c3 & _ & _ & _ & _ & _ & _ & _ & _ & L)%patch_sources_Ok_inv.
  split; intros Hg; rewrite L, Hg.
  - rewrite !decide_False by congruence. rewrite decide_True by done.
    by destruct (fs !! install_layout_cmake self).
  - rewrite !decide_False by congruence. rewrite decide_True by done.
    by destruct (fs !! root_CMakeLists self).
Qed.

Lemma patch_sources_gates_witness :
  is_ok (_patch_sources macos_cross (upstream_tree macos_cross)) = true /\
  match _patch_sources macos_cross (upstream_tree macos_cross) with
  | Ok fs' => fs' !! install_layout_cmake macos_cross
              = Some (lib_name_static_old +:+ newline)
  | Raise _ => True
  end.
Proof.
  split; [vm_compute; reflexivity|].
  destruct (_patch_sources macos_cross _) as [fs'|] eqn:H; [|exact I].
  rewrite (proj1 (patch_sources_gates macos_cross _ fs' H)).
  - vm_compute. reflexivity.
  - reflexivity.
Defined.

(** X12: when [_patch_sources] returns, the protobuf library name it used is
    protobufd for a Debug build-scope protobuf and protobuf otherwise; the
    three protobuf files held their find-texts and now hold them replaced
    (DepFindProtobuf.cmake first without the protobuf-lite line, then with the
    library renamed); each tolerant target holds its text replaced when its
    gate is open and the text was there, and its old content otherwise. *)
Theorem patch_sources_result (self : ConanFile) (fs fs' : tree) :
  _patch_sources self fs = Ok fs' ->
  exists d c1 c2 c3,
    let pb := if String.eqb (dep_build_type d) "Debug" then "protobufd" else "protobuf" in
    dependencies_build self !! "protobuf" = Some d /\
    fs !! DepFindProtobuf_cmake self = Some c1 /\
    fs !! mysqlx_CMakeLists self = Some c2 /\
    fs !! core_CMakeLists self = Some c3 /\
    Py.find c1 "LIBRARY protobuf-lite pb_libprotobuf-lite" <> -1 /\
    Py.find c2 "ext::protobuf-lite" <> -1 /\
    Py.find c3 "ext::protobuf-lite" <> -1 /\
    fs' !! DepFindProtobuf_cmake self
    = Some (Py.replace (Py.replace c1 "LIBRARY protobuf-lite pb_libprotobuf-lite" "")
                       "LIBRARY protobuf" ("LIBRARY " +:+ pb)) /\
    fs' !! mysqlx_CMakeLists self
    = Some (Py.replace c2 "ext::protobuf-lite" ("ext::" +:+ pb)) /\
    fs' !! core_CMakeLists self
    = Some (Py.replace c3 "ext::protobuf-lite" ("ext::" +:+ pb)) /\
    fs' !! root_CMakeLists self
    = (fun c => if apple_gate self
                then replaced c "PROJECT(MySQL_CONCPP)"
                       ("PROJECT(MySQL_CONCPP)" +:+ newline
                        +:+ osx_architectures_patch self)
                else c) <$> fs !! root_CMakeLists self /\
    fs' !! install_layout_cmake self
    = (fun c => if static_naming_gate self
                then replaced c lib_name_static_old lib_name_static_new
                else c) <$> fs !! install_layout_cmake self.
Proof.
  destruct (patched_paths_distinct self)
    as (D1 & D2 & D3 & D4 & D5 & D6 & D7 & D8 & D9 & D10).
  intros (pb & c1 & c2 & c3 & Hpb & Hc1 & Hc2 & Hc3 & Hf1 & Hf2 & Hf3 & _ & L)
    %patch_sources_Ok_inv.
  unfold protobuf_name in Hpb.
  destruct (dependencies_build self !! "protobuf") as [d|] eqn:Hd; [|done].
  injection Hpb as <-. exists d, c1, c2, c3. simpl.
  repeat (split; [done|]). rewrite !L.
  split; [by rewrite decide_True|].
  split; [by rewrite decide_False, decide_True by congruence|].
  split; [by rewrite !decide_False, decide_True by congruence|].
  split; [by rewrite !decide_False, decide_True by congruence|].
  by rewrite !decide_False, decide_True by congruence.
Qed.

Lemma patch_sources_result_witness :
  is_ok (_patch_sources macos_cross (upstream_tree macos_cross)) = true /\
  match _patch_sources macos_cross (upstream_tree macos_cross) with
  | Ok fs' => exists c3, fs' !! core_CMakeLists macos_cross
                         = Some (Py.replace c3 "ext::protobuf-lite" "ext::protobufd")
  | Raise _ => True
  end.
Proof.
  split; [vm_compute; reflexivity|].
  destruct (_patch_sources macos_cross _) as [fs'|] eqn:H; [|exact I].
  destruct (patch_sources_result macos_cross _ fs' H)
    as (d & c1 & c2 & c3 & Hd & _ & _ & _ & _ & _ & _ & _ & _ & Hcore & _).
  exists c3. revert Hd Hcore. vm_compute. intros [= <-]. intros ->. reflexivity.
Defined.

Section PatchErrorFacts.

Lemma not_Ok_raises {A : Type} (m : result A) :
  (forall a, m <> Ok a) -> raises m.
Proof. destruct m as [a|e]; [intros H; by destruct (H a) | intros _; by exists e]. Qed.

Lemma replace_in_file_missing (fs : tree) (p search repl : string) (b : bool) :
  fs !! p = None ->
  Conan.replace_in_file fs p search repl b = Raise (FileNotFoundError p).
Proof. intros H. unfold Conan.replace_in_file. by rewrite H. Qed.

Lemma replace_in_file_present (fs : tree) (p search repl c : string) (b : bool) :
  fs !! p = Some c -> Py.find c search <> -1 ->
  Conan.replace_in_file fs p search repl b
  = Ok (<[p := Py.replace c search repl]> fs).
Proof.
  intros H Hf. unfold Conan.replace_in_file. rewrite H.
  by destruct (Z.eqb_spec (Py.find c search) (-1)).
Qed.

Lemma replace_in_file_tolerant_total (fs : tree) (p search repl : string) :
  is_Some (fs !! p) ->
  exists fs', Conan.replace_in_file fs p search repl false = Ok fs'.
Proof.
  intros [c H]. unfold Conan.replace_in_file. rewrite H.
  destruct (_ =? _); eauto.
Qed.

End PatchErrorFacts.

(** X13: a missing input stops the pipeline. A tolerant rule whose gate is
    open still raises when its target file does not exist (the static naming
    fix with [FileNotFoundError] on install_layout.cmake); so does the
    pipeline when any of the three protobuf files does not exist, or when the
    build-scope store has no protobuf. *)
Theorem patch_sources_missing_input (self : ConanFile) (fs : tree) :
  (static_naming_gate self = true -> fs !! install_layout_cmake self = None ->
   _patch_sources self fs = Raise (FileNotFoundError (install_layout_cmake self))) /\
  (apple_gate self = true -> fs !! root_CMakeLists self = None ->
   raises (_patch_sources self fs)) /\
  (forall p, In p [DepFindProtobuf_cmake self; mysqlx_CMakeLists self;
                   core_CMakeLists self] ->
             fs !! p = None -> raises (_patch_sources self fs)) /\
  (dependencies_build self !! "protobuf" = None -> raises (_patch_sources self fs)).
Proof.
  destruct (patched_paths_distinct self) as (D1 & _).
  split; [|split; [|split]].
  - intros Hg Hn. rewrite _patch_sources_blocks.
    unfold patch_static_lib_naming. unfold static_naming_gate in Hg. rewrite Hg.
    by rewrite replace_in_file_missing.
  - intros Hg Hn. rewrite _patch_sources_blocks.
    destruct (patch_static_lib_naming self fs) as [fs1|] eqn:E1;
      [simpl|apply raises_Raise].
    apply raises_bind. unfold patch_apple. unfold apple_gate in Hg. rewrite Hg.
    rewrite replace_in_file_missing; [apply raises_Raise|].
    rewrite (patch_static_lib_naming_other _ _ _ _ E1); [done|congruence].
  - intros p Hp Hn. apply not_Ok_raises. intros fs' H.
    apply patch_sources_Ok_inv in H
      as (pb & c1 & c2 & c3 & _ & Hc1 & Hc2 & Hc3 & _).
    destruct Hp as [<-|[<-|[<-|[]]]]; congruence.
  - intros Hn. apply not_Ok_raises. intros fs' H.
    apply patch_sources_Ok_inv in H as (pb & c1 & c2 & c3 & Hpb & _).
    unfold protobuf_name in Hpb. by rewrite Hn in Hpb.
Qed.

Lemma patch_sources_missing_input_witness :
  _patch_sources windows_msvc_mt_debug ∅
  = Raise (FileNotFoundError "/src/install_layout.cmake") /\
  raises (_patch_sources macos_cross ∅) /\
  raises (_patch_sources linux_gcc9 ∅) /\
  raises (_patch_sources without_build_protobuf (upstream_tree without_build_protobuf)).
Proof.
  split; [|split; [|split]].
  - apply (proj1 (patch_sources_missing_input windows_msvc_mt_debug ∅));
      reflexivity.
  - apply (proj1 (proj2 (patch_sources_missing_input macos_cross ∅)));
      reflexivity.
  - apply (proj1 (proj2 (proj2 (patch_sources_missing_input linux_gcc9 ∅)))
             (core_CMakeLists linux_gcc9)).
    + simpl. auto.
    + reflexivity.
  - apply (proj2 (proj2 (proj2 (patch_sources_missing_input without_build_protobuf
                                  (upstream_tree without_build_protobuf))))).
    reflexivity.
Defined.

(** X14: [_patch_sources] returns whenever the build-scope store has protobuf,
    each tolerant rule with an open gate finds its file, DepFindProtobuf.cmake
    holds the protobuf-lite line and, once that line is taken out, still holds
    a protobuf library line, and the two CMakeLists.txt under cdk name
    ext::protobuf-lite. *)
Theorem patch_sources_returns (self : ConanFile) (fs : tree) (c1 c2 c3 : string) :
  is_Some (dependencies_build self !! "protobuf") ->
  (static_naming_gate self = true -> is_Some (fs !! install_layout_cmake self)) ->
  (apple_gate self = true -> is_Some (fs !! root_CMakeLists self)) ->
  fs !! DepFindProtobuf_cmake self = Some c1 ->
  Py.find c1 "LIBRARY protobuf-lite pb_libprotobuf-lite" <> -1 ->
  Py.find (Py.replace c1 "LIBRARY protobuf-lite pb_libprotobuf-lite" "")
          "LIBRARY protobuf" <> -1 ->
  fs !! mysqlx_CMakeLists self = Some c2 ->
  Py.find c2 "ext::protobuf-lite" <> -1 ->
  fs !! core_CMakeLists self = Some c3 ->
  Py.find c3 "ext::protobuf-lite" <> -1 ->
  exists fs', _patch_sources self fs = Ok fs'.
Proof.
  destruct (patched_paths_distinct self)
    as (D1 & D2 & D3 & D4 & D5 & D6 & D7 & D8 & D9 & D10).
  intros [d Hd] Hg1 Hg2 Hc1 Hf1 Hf1' Hc2 Hf2 Hc3 Hf3.
  rewrite _patch_sources_blocks.
  assert (exists fs1, patch_static_lib_naming self fs = Ok fs1) as [fs1 E1].
  { unfold patch_static_lib_naming. unfold static_naming_gate in Hg1.
    destruct (_ && _); [|eauto]. by apply replace_in_file_tolerant_total, Hg1. }
  rewrite E1. simpl.
  assert (exists fs2, patch_apple self fs1 = Ok fs2) as [fs2 E2].
  { unfold patch_apple. unfold apple_gate in Hg2.
    destruct (_ && _); [|eauto]. apply replace_in_file_tolerant_total.
    rewrite (patch_static_lib_naming_other _ _ _ _ E1); [by apply Hg2|congruence]. }
  rewrite E2. simpl.
  assert (forall q, q <> install_layout_cmake self -> q <> root_CMakeLists self ->
            fs2 !! q = fs !! q) as L.
  { intros q N1 N2. rewrite (patch_apple_other _ _ _ _ E2) by done.
    by rewrite (patch_static_lib_naming_other _ _ _ _ E1). }
  unfold patch_protobuf, protobuf_name. rewrite Hd. simpl.
  rewrite (replace_in_file_present _ _ _ _ c1); [simpl| |done].
  2: { rewrite L; [done|congruence..]. }
  rewrite (replace_in_file_present _ _ _ _
             (Py.replace c1 "LIBRARY protobuf-lite pb_libprotobuf-lite" ""));
    [simpl| |done].
  2: { apply lookup_insert_eq. }
  rewrite (replace_in_file_present _ _ _ _ c2); [simpl| |done].
  2: { rewrite !lookup_insert_ne by congruence. rewrite L; [done|congruence..]. }
  rewrite (replace_in_file_present _ _ _ _ c3); [eauto| |done].
  rewrite !lookup_insert_ne by congruence. rewrite L; [done|congruence..].
Qed.

Lemma patch_sources_returns_witness :
  exists fs', _patch_sources macos_cross (upstream_tree macos_cross) = Ok fs'.
Proof.
  eapply (patch_sources_returns macos_cross (upstream_tree macos_cross)).
  - vm_compute. eauto.
  - discriminate.
  - intros _. vm_compute. eauto.
  - vm_compute. reflexivity.
  - vm_compute. discriminate.
  - vm_compute. discriminate.
  - vm_compute. reflexivity.
  - vm_compute. discriminate.
  - vm_compute. reflexivity.
  - vm_compute. discriminate.
Defined.

Section ReplaceFacts.

Lemma length_append (a b : string) :
  String.length (a +:+ b) = (String.length a + String.length b)%nat.
Proof. induction a as [|x a IH]; [done|]. rewrite append_cons. simpl. by rewrite IH. Qed.

Lemma prefix_append_r (a s t : string) :
  String.prefix a s = true -> String.prefix a (s +:+ t) = true.
Proof.
  revert s. induction a as [|x a IH]; intros s H.
  - by destruct (s +:+ t).
  - destruct s as [|y s]; [done|]. rewrite append_cons. simpl in *.
    destruct (ascii_dec x y); [by apply IH | done].
Qed.

Lemma find_prefix (s sub : string) :
  String.prefix sub s = true -> Py.find s sub <> -1.
Proof. intros H. unfold Py.find. rewrite find_from_unfold, H. lia. Qed.

Lemma find_cons_present (c : ascii) (s sub : string) :
  Py.find s sub <> -1 -> Py.find (String c s) sub <> -1.
Proof.
  unfold Py.find. intros H. rewrite find_from_unfold.
  destruct (String.prefix sub (String c s)); [lia|].
  intros H'. apply H. revert H'. apply find_from_shift; lia.
Qed.

Lemma find_cons_absent_prefix (c : ascii) (s sub : string) :
  Py.find (String c s) sub <> -1 -> String.prefix sub (String c s) = false ->
  Py.find s sub <> -1.
Proof.
  unfold Py.find. rewrite find_from_unfold. intros H Hp. rewrite Hp in H.
  intros H'. apply H. revert H'. apply find_from_shift; lia.
Qed.

(** A replacement that starts with its own find-text leaves the find-text in
    the file. *)
Lemma replace_keeps_pattern (s old new : string) :
  String.prefix old new = true -> Py.find s old <> -1 ->
  Py.find (Py.replace s old new) old <> -1.
Proof.
  intros Hn. unfold Py.replace. induction s as [|c s IH]; intros H.
  - destruct old; [by apply find_prefix | done].
  - cbn [Py.replace_go].
    destruct (String.prefix old (String c s)) eqn:Hp.
    + destruct (String.length old); by apply find_prefix, prefix_append_r.
    + apply find_cons_present, IH. by eapply find_cons_absent_prefix.
Qed.

Lemma replace_go_length_ge (old new : string) :
  (String.length old <= String.length new)%nat ->
  forall s skip,
    (String.length s <= String.length (Py.replace_go old new skip s) + skip)%nat.
Proof.
  intros Hl. induction s as [|c s IH]; intros skip; [simpl; lia|].
  cbn [Py.replace_go]. destruct skip as [|k].
  - destruct (String.prefix old (String c s)).
    + destruct (String.length old) as [|k] eqn:Ek; rewrite length_append.
      * simpl. specialize (IH O). lia.
      * specialize (IH k). simpl. lia.
    + simpl. specialize (IH O). lia.
  - specialize (IH k). simpl. lia.
Qed.

(** A replacement longer than its find-text makes the file longer. *)
Lemma replace_length_grows (s old new : string) :
  (String.length old < String.length new)%nat -> Py.find s old <> -1 ->
  (String.length s < String.length (Py.replace s old new))%nat.
Proof.
  intros Hl. unfold Py.replace. induction s as [|c s IH]; intros H.
  - destruct old; [simpl in *; lia | done].
  - cbn [Py.replace_go].
    destruct (String.prefix old (String c s)) eqn:Hp.
    + destruct (String.length old) as [|k] eqn:Ek; rewrite length_append.
      * pose proof (replace_go_length_ge old new ltac:(lia) s O). simpl. lia.
      * pose proof (replace_go_length_ge old new ltac:(lia) s k). simpl. lia.
    + simpl. apply find_cons_absent_prefix in H; [|done]. specialize (IH H). lia.
Qed.

End ReplaceFacts.

(** X15: the Apple injection is not idempotent. Its replacement starts with
    the anchor PROJECT(MySQL_CONCPP), so after the rule has run on a file that
    holds the anchor, the anchor is still there and the file is longer; a
    second run of the rule injects the directive again and makes the file
    longer once more. *)
Theorem patch_apple_runs_again (self : ConanFile) (fs : tree) (c : string) :
  apple_gate self = true ->
  fs !! root_CMakeLists self = Some c ->
  Py.find c "PROJECT(MySQL_CONCPP)" <> -1 ->
  exists fs1 fs2 c1 c2,
    patch_apple self fs = Ok fs1 /\
    patch_apple self fs1 = Ok fs2 /\
    fs1 !! root_CMakeLists self = Some c1 /\
    fs2 !! root_CMakeLists self = Some c2 /\
    Py.find c1 "PROJECT(MySQL_CONCPP)" <> -1 /\
    (String.length c < String.length c1 < String.length c2)%nat.
Proof.
  intros Hg Hc Hf. unfold patch_apple. unfold apple_gate in Hg. rewrite Hg.
  set (new := "PROJECT(MySQL_CONCPP)" +:+ newline +:+ osx_architectures_patch self).
  assert (String.prefix "PROJECT(MySQL_CONCPP)" new = true) as Hp.
  { unfold new. by apply prefix_append_r. }
  assert (String.length "PROJECT(MySQL_CONCPP)" < String.length new)%nat as Hl.
  { unfold new. rewrite !length_append. simpl. lia. }
  set (c1 := Py.replace c "PROJECT(MySQL_CONCPP)" new).
  set (c2 := Py.replace c1 "PROJECT(MySQL_CONCPP)" new).
  assert (Py.find c1 "PROJECT(MySQL_CONCPP)" <> -1) as Hf1
    by by apply replace_keeps_pattern.
  exists (<[root_CMakeLists self := c1]> fs),
         (<[root_CMakeLists self := c2]> (<[root_CMakeLists self := c1]> fs)), c1, c2.
  split; [by apply replace_in_file_present|].
  split; [apply replace_in_file_present; [apply lookup_insert_eq | done]|].
  split; [apply lookup_insert_eq|]. split; [apply lookup_insert_eq|].
  split; [done|]. split; by apply replace_length_grows.
Qed.

Lemma patch_apple_runs_again_witness :
  exists fs1 fs2 c1 c2,
    patch_apple macos_cross (upstream_tree macos_cross) = Ok fs1 /\
    patch_apple macos_cross fs1 = Ok fs2 /\
    fs1 !! root_CMakeLists macos_cross = Some c1 /\
    fs2 !! root_CMakeLists macos_cross = Some c2 /\
    Py.find c1 "PROJECT(MySQL_CONCPP)" <> -1 /\
    (String.length ("PROJECT(MySQL_CONCPP)" +:+ newline)
     < String.length c1 < String.length c2)%nat.
Proof.
  apply patch_apple_runs_again.
  - reflexivity.
  - vm_compute. reflexivity.
  - vm_compute. discriminate.
Defined.

(** ** Consumption metadata: further facts *)

(** X16: [package_info] reads the OS, the build type, the compiler name, the
    runtime flag and [shared], and nothing else: two recipe instances that
    agree on these publish the same [cpp_info], whatever their compiler
    version, language standard, architecture, [fPIC], dependency stores and
    source folder. *)
Theorem package_info_reads_only (host : Host) (self self' : ConanFile) :
  os (settings self) = os (settings self') ->
  build_type (settings self) = build_type (settings self') ->
  compiler (settings self) = compiler (settings self') ->
  compiler_runtime_flag (settings self) = compiler_runtime_flag (settings self') ->
  shared (options self) = shared (options self') ->
  package_info host self = package_info host self'.
Proof.
  intros H1 H2 H3 H4 H5.
  unfold package_info, Conan.is_msvc_static_runtime, Conan.is_msvc, Conan.is_apple_os.
  by rewrite H1, H2, H3, H4, H5.
Qed.

Lemma package_info_reads_only_witness :
  package_info PosixHost linux_gcc9 = package_info PosixHost linux_gcc7.
Proof. apply package_info_reads_only; reflexivity. Defined.

(** X17: a build type that is neither Release nor Debug (RelWithDebInfo,
    MinSizeRel) is sent to the debug library directory, lib joined with debug
    by the host (and with vs14 for MSVC), yet its alias carries no -debug
    suffix: the directory test is for Release, the alias test is for Debug. *)
Theorem package_info_other_build_type (host : Host) (self : ConanFile) :
  build_type (settings self) <> "Release" ->
  build_type (settings self) <> "Debug" ->
  libdirs (package_info host self)
  = [if Conan.is_msvc (settings self)
     then os_path_join host (os_path_join host "lib" ["debug"]) ["vs14"]
     else os_path_join host "lib" ["debug"]] /\
  libdirs (package_info host self)
  = ["lib" +:+ os_sep host +:+ "debug"
     +:+ (if Conan.is_msvc (settings self) then os_sep host +:+ "vs14" else "")] /\
  properties (package_info host self) !! "cmake_target_aliases"
  = Some (PList [if shared (options self)
                 then "mysql::concpp-static" else "mysql::concpp"]).
Proof.
  intros Hr%String.eqb_neq Hd%String.eqb_neq.
  unfold package_info. rewrite Hr, Hd.
  destruct host, (shared (options self)), (Conan.is_msvc (settings self)),
    (Conan.is_msvc_static_runtime (settings self)), (Conan.is_apple_os (settings self)),
    (Py.elem (os (settings self)) ["Linux"; "FreeBSD"]);
    repeat split; reflexivity.
Qed.

Lemma package_info_other_build_type_witness :
  libdirs (package_info PosixHost linux_gcc9_relwithdebinfo) = ["lib/debug"] /\
  libdirs (package_info WindowsHost linux_gcc9_relwithdebinfo)
  = ["lib" +:+ backslash +:+ "debug"] /\
  properties (package_info PosixHost linux_gcc9_relwithdebinfo) !! "cmake_target_aliases"
  = Some (PList ["mysql::concpp"]).
Proof.
  split; [|split].
  - apply (proj1 (proj2 (package_info_other_build_type PosixHost
                           linux_gcc9_relwithdebinfo
                           ltac:(discriminate) ltac:(discriminate)))).
  - apply (proj1 (proj2 (package_info_other_build_type WindowsHost
                           linux_gcc9_relwithdebinfo
                           ltac:(discriminate) ltac:(discriminate)))).
  - apply (proj2 (proj2 (package_info_other_build_type PosixHost
                           linux_gcc9_relwithdebinfo
                           ltac:(discriminate) ltac:(discriminate)))).
Defined.

(** ** The build step *)

Section BuildFacts.

Lemma patch_sources_strict_raises (self : ConanFile) (fs : tree) (p search c : string) :
  In (p, search) (strict_rules self) -> fs !! p = Some c ->
  Py.find c search = -1 -> raises (_patch_sources self fs).
Proof.
  intros Hin Hp Hf. apply not_Ok_raises. intros fs' H.
  apply patch_sources_Ok_inv in H
    as (pb & c1 & c2 & c3 & _ & Hc1 & Hc2 & Hc3 & Hf1 & Hf2 & Hf3 & _).
  destruct Hin as [[= <- <-]|[[= <- <-]|[[= <- <-]|[[= <- <-]|[]]]]];
    simplify_eq; try done.
  apply Hf1. by apply (find_append "LIBRARY protobuf" "-lite pb_libprotobuf-lite").
Qed.

End BuildFacts.

(** X18: [build] patches before it hands the tree to CMake. Whatever the
    configure and build steps do, an exception of [_patch_sources] is the
    outcome of [build]; in particular a checkout that lacks the find-text of a
    strict rule, or a build-scope store without protobuf, makes [build] raise;
    and when the patches return, configure and then build run on the patched
    tree. *)
Theorem build_patches_first
    (cmake_configure cmake_build : ConanFile -> tree -> result tree)
    (self : ConanFile) (fs : tree) :
  (forall e, _patch_sources self fs = Raise e ->
             build cmake_configure cmake_build self fs = Raise e) /\
  (forall p search c,
     In (p, search) (strict_rules self) -> fs !! p = Some c ->
     Py.find c search = -1 ->
     raises (build cmake_configure cmake_build self fs)) /\
  (dependencies_build self !! "protobuf" = None ->
   raises (build cmake_configure cmake_build self fs)) /\
  (forall fs1, _patch_sources self fs = Ok fs1 ->
               build cmake_configure cmake_build self fs
               = (fs2 ← cmake_configure self fs1; cmake_build self fs2)).
Proof.
  unfold build. split; [|split; [|split]].
  - by intros e ->.
  - intros p search c Hin Hp Hf. apply raises_bind.
    by eapply patch_sources_strict_raises.
  - intros Hn. apply raises_bind. apply not_Ok_raises. intros fs' H.
    apply patch_sources_Ok_inv in H as (pb & c1 & c2 & c3 & Hpb & _).
    unfold protobuf_name in Hpb. by rewrite Hn in Hpb.
  - by intros fs1 ->.
Qed.

Lemma build_patches_first_witness :
  raises (build (fun _ t => Ok t) (fun _ t => Ok t) windows_msvc_mt_debug
            (incompatible_tree windows_msvc_mt_debug)) /\
  raises (build (fun _ t => Ok t) (fun _ t => Ok t) without_build_protobuf
            (upstream_tree without_build_protobuf)).
Proof.
  split.
  - apply (proj1 (proj2 (build_patches_first (fun _ t => Ok t) (fun _ t => Ok t)
                           windows_msvc_mt_debug
                           (incompatible_tree windows_msvc_mt_debug)))
             (core_CMakeLists windows_msvc_mt_debug) "ext::protobuf-lite"
             "ext::protobuf").
    + simpl. auto.
    + vm_compute. reflexivity.
    + reflexivity.
  - apply (proj1 (proj2 (proj2 (build_patches_first (fun _ t => Ok t) (fun _ t => Ok t)
                                  without_build_protobuf
                                  (upstream_tree without_build_protobuf))))).
    reflexivity.
Defined.

(** ** Patch orchestration: strict and tolerant rules *)

Section StrictTolerantFacts.

Lemma bind_ok_or_pattern_missing (D : gset string) (m : result tree)
    (k : tree -> result tree) :
  ok_or_pattern_missing D m ->
  (forall t, dom t = D -> ok_or_pattern_missing D (k t)) ->
  ok_or_pattern_missing D (m ≫= k).
Proof.
  intros [(t & -> & Ht)|(msg & ->)] Hk; [by apply Hk|].
  right. by exists msg.
Qed.

Lemma replace_in_file_ok_or_pattern_missing (fs : tree) (p search repl : string)
    (b : bool) :
  p ∈ dom fs ->
  ok_or_pattern_missing (dom fs) (Conan.replace_in_file fs p search repl b).
Proof.
  intros [c Hc]%elem_of_dom. unfold Conan.replace_in_file. rewrite Hc.
  destruct (_ =? _).
  - destruct b; [right; eauto | left; eauto].
  - left. eexists. split; [done|]. apply dom_insert_lookup_L. by rewrite Hc.
Qed.

Variable self : ConanFile.

Lemma patch_static_lib_naming_absent (fs : tree) (c : string) :
  fs !! install_layout_cmake self = Some c ->
  Py.find c lib_name_static_old = -1 ->
  patch_static_lib_naming self fs = Ok fs.
Proof.
  intros Hp Hf. unfold patch_static_lib_naming. destruct (_ && _); [|done].
  by eapply replace_in_file_absent_tolerant.
Qed.

Lemma patch_apple_absent (fs : tree) (c : string) :
  fs !! root_CMakeLists self = Some c ->
  Py.find c "PROJECT(MySQL_CONCPP)" = -1 ->
  patch_apple self fs = Ok fs.
Proof.
  intros Hp Hf. unfold patch_apple. destruct (_ && _); [|done].
  by eapply replace_in_file_absent_tolerant.
Qed.

Lemma patch_protobuf_returns (fs : tree) (c1 c2 c3 : string) :
  is_Some (dependencies_build self !! "protobuf") ->
  fs !! DepFindProtobuf_cmake self = Some c1 ->
  Py.find c1 "LIBRARY protobuf-lite pb_libprotobuf-lite" <> -1 ->
  Py.find (Py.replace c1 "LIBRARY protobuf-lite pb_libprotobuf-lite" "")
          "LIBRARY protobuf" <> -1 ->
  fs !! mysqlx_CMakeLists self = Some c2 ->
  Py.find c2 "ext::protobuf-lite" <> -1 ->
  fs !! core_CMakeLists self = Some c3 ->
  Py.find c3 "ext::protobuf-lite" <> -1 ->
  exists fs', patch_protobuf self fs = Ok fs'.
Proof.
  destruct (patched_paths_distinct self)
    as (_ & _ & _ & _ & _ & _ & _ & D8 & D9 & D10).
  intros [d Hd] Hc1 Hf1 Hf1' Hc2 Hf2 Hc3 Hf3.
  unfold patch_protobuf, protobuf_name. rewrite Hd. simpl.
  rewrite (replace_in_file_present _ _ _ _ c1) by done. simpl.
  rewrite (replace_in_file_present _ _ _ _
             (Py.replace c1 "LIBRARY protobuf-lite pb_libprotobuf-lite" ""));
    [simpl|apply lookup_insert_eq|done].
  rewrite (replace_in_file_present _ _ _ _ c2); [simpl| |done].
  2: { by rewrite !lookup_insert_ne by congruence. }
  rewrite (replace_in_file_present _ _ _ _ c3); [eauto| |done].
  by rewrite !lookup_insert_ne by congruence.
Qed.

(** The second strict rule sees the file as the first one left it. *)
Lemma patch_sources_Ok_second_rule (fs fs' : tree) :
  _patch_sources self fs = Ok fs' ->
  exists c1, fs !! DepFindProtobuf_cmake self = Some c1 /\
    Py.find (Py.replace c1 "LIBRARY protobuf-lite pb_libprotobuf-lite" "")
            "LIBRARY protobuf" <> -1.
Proof.
  destruct (patched_paths_distinct self) as (_ & D2 & _ & _ & D5 & _).
  rewrite _patch_sources_blocks. intros H.
  destruct (patch_static_lib_naming self fs) as [fs1|] eqn:E1; [simpl in H|done].
  destruct (patch_apple self fs1) as [fs2|] eqn:E2; [simpl in H|done].
  apply patch_protobuf_lookup in H
    as (pb & c1 & c2 & c3 & _ & Hc1 & _ & _ & _ & Hf & _).
  exists c1. split; [|done].
  rewrite <- Hc1. rewrite (patch_apple_other _ _ _ _ E2) by congruence.
  by rewrite (patch_static_lib_naming_other _ _ _ _ E1) by congruence.
Qed.

Lemma patch_sources_ok_or_pattern_missing (fs : tree) :
  patch_inputs_present self fs ->
  ok_or_pattern_missing (dom fs) (_patch_sources self fs).
Proof.
  intros ([d Hd] & Hg1 & Hg2 & H1 & H2 & H3).
  apply elem_of_dom in H1, H2, H3.
  rewrite _patch_sources_blocks.
  apply bind_ok_or_pattern_missing.
  { unfold patch_static_lib_naming. unfold static_naming_gate in Hg1.
    destruct (_ && _); [|left; eauto].
    by apply replace_in_file_ok_or_pattern_missing, elem_of_dom, Hg1. }
  intros fs1 Hd1. apply bind_ok_or_pattern_missing.
  { unfold patch_apple. unfold apple_gate in Hg2.
    destruct (_ && _); [|left; eauto]. rewrite <- Hd1.
    apply replace_in_file_ok_or_pattern_missing. rewrite Hd1.
    by apply elem_of_dom, Hg2. }
  intros fs2 Hd2. unfold patch_protobuf, protobuf_name. rewrite Hd. simpl.
  apply bind_ok_or_pattern_missing.
  { rewrite <- Hd2. apply replace_in_file_ok_or_pattern_missing. by rewrite Hd2. }
  intros fs3 Hd3. apply bind_ok_or_pattern_missing.
  { rewrite <- Hd3. apply replace_in_file_ok_or_pattern_missing. by rewrite Hd3. }
  intros fs4 Hd4. apply bind_ok_or_pattern_missing.
  { rewrite <- Hd4. apply replace_in_file_ok_or_pattern_missing. by rewrite Hd4. }
  intros fs5 Hd5.
  rewrite <- Hd5. apply replace_in_file_ok_or_pattern_missing. by rewrite Hd5.
Qed.

End StrictTolerantFacts.

(** C4: a strict replacement raises whenever its find-text is missing from its
    target file, and a strict rule (any of the four protobuf substitutions)
    whose find-text is missing from its target file in the checkout makes
    [_patch_sources] raise; so does the second substitution when its text is
    missing from the file as the first one leaves it. When everything the
    pipeline reads is there, the exception is the [ConanException] of the
    missing pattern. A tolerant rule whose find-text is missing (the MSVC
    static-naming fix, the Apple architecture injection) changes nothing: the
    pipeline runs exactly as the remaining rules do, the target file keeps its
    content, and with the texts of the strict rules in place the pipeline
    returns. *)
Theorem patch_sources_strict_and_tolerant (self : ConanFile) (fs : tree) :
  (forall p search repl c,
     fs !! p = Some c -> Py.find c search = -1 ->
     raises (Conan.replace_in_file fs p search repl true)) /\
  (forall p search c,
     In (p, search) (strict_rules self) ->
     fs !! p = Some c -> Py.find c search = -1 ->
     raises (_patch_sources self fs) /\
     (patch_inputs_present self fs ->
      exists msg, _patch_sources self fs = Raise (ConanException msg))) /\
  (forall c,
     fs !! DepFindProtobuf_cmake self = Some c ->
     Py.find (Py.replace c "LIBRARY protobuf-lite pb_libprotobuf-lite" "")
             "LIBRARY protobuf" = -1 ->
     raises (_patch_sources self fs)) /\
  (forall c,
     fs !! install_layout_cmake self = Some c ->
     Py.find c lib_name_static_old = -1 ->
     patch_static_lib_naming self fs = Ok fs /\
     _patch_sources self fs
     = (fs2 ← patch_apple self fs; patch_protobuf self fs2) /\
     forall fs', _patch_sources self fs = Ok fs' ->
                 fs' !! install_layout_cmake self = Some c) /\
  (forall c,
     fs !! root_CMakeLists self = Some c ->
     Py.find c "PROJECT(MySQL_CONCPP)" = -1 ->
     patch_apple self fs = Ok fs /\
     _patch_sources self fs
     = (fs1 ← patch_static_lib_naming self fs; patch_protobuf self fs1) /\
     forall fs', _patch_sources self fs = Ok fs' ->
                 fs' !! root_CMakeLists self = Some c) /\
  (forall ci cr c1 c2 c3,
     fs !! install_layout_cmake self = Some ci ->
     Py.find ci lib_name_static_old = -1 ->
     fs !! root_CMakeLists self = Some cr ->
     Py.find cr "PROJECT(MySQL_CONCPP)" = -1 ->
     is_Some (dependencies_build self !! "protobuf") ->
     fs !! DepFindProtobuf_cmake self = Some c1 ->
     Py.find c1 "LIBRARY protobuf-lite pb_libprotobuf-lite" <> -1 ->
     Py.find (Py.replace c1 "LIBRARY protobuf-lite pb_libprotobuf-lite" "")
             "LIBRARY protobuf" <> -1 ->
     fs !! mysqlx_CMakeLists self = Some c2 ->
     Py.find c2 "ext::protobuf-lite" <> -1 ->
     fs !! core_CMakeLists self = Some c3 ->
     Py.find c3 "ext::protobuf-lite" <> -1 ->
     exists fs', _patch_sources self fs = Ok fs' /\
                 fs' !! install_layout_cmake self = Some ci /\
                 fs' !! root_CMakeLists self = Some cr).
Proof.
  destruct (patched_paths_distinct self)
    as (D1 & D2 & D3 & D4 & D5 & D6 & D7 & _).
  assert (forall c, fs !! install_layout_cmake self = Some c ->
            Py.find c lib_name_static_old = -1 ->
            _patch_sources self fs
            = (fs2 ← patch_apple self fs; patch_protobuf self fs2)) as Hmsvc.
  { intros c Hp Hf. rewrite _patch_sources_blocks.
    by rewrite (patch_static_lib_naming_absent self fs c Hp Hf). }
  assert (forall c, fs !! root_CMakeLists self = Some c ->
            Py.find c "PROJECT(MySQL_CONCPP)" = -1 ->
            _patch_sources self fs
            = (fs1 ← patch_static_lib_naming self fs; patch_protobuf self fs1)) as Happle.
  { intros c Hp Hf. rewrite _patch_sources_blocks.
    destruct (patch_static_lib_naming self fs) as [fs1|] eqn:E1; [simpl|done].
    rewrite (patch_apple_absent self fs1 c); [done| |done].
    rewrite (patch_static_lib_naming_other _ _ _ _ E1); [done|congruence]. }
  split; [|split; [|split; [|split; [|split]]]].
  - intros p search repl c. apply replace_in_file_absent_strict.
  - intros p search c Hin Hp Hf.
    assert (raises (_patch_sources self fs)) as Hr
      by by eapply patch_sources_strict_raises.
    split; [done|]. intros Hin'.
    destruct (patch_sources_ok_or_pattern_missing self fs Hin')
      as [(t & Ht & _)|Hmsg]; [|done].
    destruct Hr as [e He]. congruence.
  - intros c Hc Hf. apply not_Ok_raises. intros fs' H.
    apply patch_sources_Ok_second_rule in H as (c1 & Hc1 & Hf1). congruence.
  - intros c Hp Hf. split; [by eapply patch_static_lib_naming_absent|].
    split; [by eapply Hmsvc|]. intros fs'. rewrite (Hmsvc c Hp Hf).
    destruct (patch_apple self fs) as [fs2|] eqn:E2; [simpl|done]. intros E3.
    rewrite (patch_protobuf_other _ _ _ _ E3) by done.
    by rewrite (patch_apple_other _ _ _ _ E2).
  - intros c Hp Hf. split; [by eapply patch_apple_absent|].
    split; [by eapply Happle|]. intros fs'. rewrite (Happle c Hp Hf).
    destruct (patch_static_lib_naming self fs) as [fs1|] eqn:E1; [simpl|done].
    intros E3. rewrite (patch_protobuf_other _ _ _ _ E3) by done.
    rewrite (patch_static_lib_naming_other _ _ _ _ E1); [done|congruence].
  - intros ci cr c1 c2 c3 Hi Hfi Hr Hfr Hpb Hc1 Hf1 Hf1' Hc2 Hf2 Hc3 Hf3.
    rewrite (Hmsvc ci Hi Hfi), (patch_apple_absent self fs cr Hr Hfr). simpl.
    destruct (patch_protobuf_returns self fs c1 c2 c3) as [fs' E]; [done..|].
    exists fs'. split; [done|].
    by rewrite !(patch_protobuf_other _ _ _ _ E) by done.
Qed.

Lemma patch_sources_strict_and_tolerant_witness :
  (exists msg, _patch_sources windows_msvc_mt_debug
                 (incompatible_tree windows_msvc_mt_debug)
               = Raise (ConanException msg)) /\
  (exists fs', _patch_sources windows_msvc_mt_debug (drifted_tree windows_msvc_mt_debug)
               = Ok fs' /\
               fs' !! install_layout_cmake windows_msvc_mt_debug
               = Some "set(LIB_NAME_STATIC mysqlcppconn-static-mt)" /\
               fs' !! root_CMakeLists windows_msvc_mt_debug
               = Some ("project(MySQL_CONCPP)" +:+ newline)) /\
  (exists fs', _patch_sources macos_cross (drifted_tree macos_cross) = Ok fs' /\
               fs' !! install_layout_cmake macos_cross
               = Some "set(LIB_NAME_STATIC mysqlcppconn-static-mt)" /\
               fs' !! root_CMakeLists macos_cross
               = Some ("project(MySQL_CONCPP)" +:+ newline)) /\
  is_ok (_patch_sources windows_msvc_mt_debug (drifted_tree windows_msvc_mt_debug))
  = true /\
  is_ok (_patch_sources macos_cross (drifted_tree macos_cross)) = true.
Proof.
  split; [|split; [|split; [|split]]].
  - apply (proj1 (proj2 (patch_sources_strict_and_tolerant windows_msvc_mt_debug
                           (incompatible_tree windows_msvc_mt_debug)))
             (core_CMakeLists windows_msvc_mt_debug) "ext::protobuf-lite"
             "ext::protobuf").
    + simpl. auto.
    + vm_compute. reflexivity.
    + reflexivity.
    + unfold patch_inputs_present. repeat split; try (intros _); vm_compute; eauto.
  - apply (proj2 (proj2 (proj2 (proj2 (proj2
             (patch_sources_strict_and_tolerant windows_msvc_mt_debug
                (drifted_tree windows_msvc_mt_debug))))))
             "set(LIB_NAME_STATIC mysqlcppconn-static-mt)"
             ("project(MySQL_CONCPP)" +:+ newline)
             ("LIBRARY protobuf-lite pb_libprotobuf-lite" +:+ newline
              +:+ "LIBRARY protobuf pb_libprotobuf" +:+ newline)
             "ext::protobuf-lite" "ext::protobuf-lite");
      try (vm_compute; reflexivity); try (vm_compute; discriminate).
    vm_compute. eauto.
  - apply (proj2 (proj2 (proj2 (proj2 (proj2
             (patch_sources_strict_and_tolerant macos_cross
                (drifted_tree macos_cross))))))
             "set(LIB_NAME_STATIC mysqlcppconn-static-mt)"
             ("project(MySQL_CONCPP)" +:+ newline)
             ("LIBRARY protobuf-lite pb_libprotobuf-lite" +:+ newline
              +:+ "LIBRARY protobuf pb_libprotobuf" +:+ newline)
             "ext::protobuf-lite" "ext::protobuf-lite");
      try (vm_compute; reflexivity); try (vm_compute; discriminate).
    vm_compute. eauto.
  - vm_compute. reflexivity.
  - vm_compute. reflexivity.
Defined.
